(** * merlin.systems.dag.dictarray: Column and DictArray

    A shallow embedding of [merlin/systems/dag/dictarray.py]: the [Column]
    wrapper around a flat value buffer with optional per-row lengths, the
    [DictArray] name-to-column mapping and the conversion to and from the two
    dataframe list encodings.

    Python objects that are mutated in place ([Column]) or compared by
    identity (dictionary views) live in an object store addressed by
    references; methods are computations in a state-and-exception monad over
    that store. *)

From Stdlib Require Import ZArith Lia.
From stdpp Require Import list strings.

Open Scope Z_scope.

(** ** Exceptions and results *)

Inductive exception :=
| TypeError (msg : string)
| ValueError (msg : string)
| AttributeError (msg : string)
| IndexError
| KeyError (key : string)
| MalformedOffsetsError
| InvalidRef  (* a reference absent from the store; no Python program reaches it *)
| Unmodelled (what : string).
  (* not an exception of the program: at this input the program goes on with
     values the embedding cannot hold (missing values of a dataframe,
     arithmetic of two libraries' integers); no result is asserted there *)

Inductive result (A : Type) :=
| Ok (a : A)
| Raise (e : exception).
Arguments Ok {A} a.
Arguments Raise {A} e.

Definition rbind {A B} (r : result A) (k : A -> result B) : result B :=
  match r with
  | Ok a => k a
  | Raise e => Raise e
  end.

Declare Scope result_scope.
Delimit Scope result_scope with result.
Notation "'let?' x ':=' r 'in' k" := (rbind r (fun x => k))
  (at level 10, x name, r at level 100, k at level 200) : result_scope.
Open Scope result_scope.

Definition is_ok {A} (r : result A) : bool :=
  match r with Ok _ => true | Raise _ => false end.

(** ** Array buffers (numpy / cupy)

    An array is a row-major buffer with a shape.  [nd_lib] is the Python type
    of the object: [numpy.ndarray] (host memory), [cupy.ndarray] (accelerator
    memory), or an array-like object of another type that still has [dtype]
    and [shape] attributes.  Element payloads are integers.  The difference
    of two buffers wraps around at the width of their dtype; running sums
    ([np.cumsum]) and the scalar subtraction in [Column.offsets] are those
    of the integers, that is, they are right as long as the sums fit
    int64. *)

Inductive Lib := Numpy | Cupy | Foreign.
Inductive DType := Int32 | Int64 | UInt64 | Float32 | Float64 | Object.

Record ndarray := NdArray {
  nd_lib : Lib;
  nd_dtype : DType;
  nd_shape : list nat;
  nd_data : list Z
}.

Definition Lib_eqb (a b : Lib) : bool :=
  match a, b with
  | Numpy, Numpy | Cupy, Cupy | Foreign, Foreign => true
  | _, _ => false
  end.

Definition DType_eqb (a b : DType) : bool :=
  match a, b with
  | Int32, Int32 | Int64, Int64 | UInt64, UInt64 | Float32, Float32
  | Float64, Float64 | Object, Object => true
  | _, _ => false
  end.

(** Number of elements of a shape. *)
Definition size_of (s : list nat) : nat := foldr Nat.mul 1%nat s.

Definition wf_ndarray (a : ndarray) : Prop :=
  length (nd_data a) = size_of (nd_shape a).

(** A Python value as the code receives it: [None], a list of integers, or
    an array. *)
Inductive pyval :=
| PyNone
| PyList (l : list Z)
| PyArray (a : ndarray).

Definition in_range (lo hi z : Z) : bool := (lo <=? z) && (z <? hi).

(** The dtype numpy gives to an array made from a flat list of Python
    integers: float64 for the empty list, int64 when every entry fits,
    uint64 when every entry fits that instead, float64 when the entries fit
    int64 or uint64 but not one of them alone, and object otherwise. *)
Definition list_dtype (l : list Z) : DType :=
  match l with
  | [] => Float64
  | _ =>
      if forallb (in_range (- 2 ^ 63) (2 ^ 63)) l then Int64
      else if forallb (in_range 0 (2 ^ 64)) l then UInt64
      else if forallb (in_range (- 2 ^ 63) (2 ^ 64)) l then Float64
      else Object
  end.

(** [lib.array(l)] for a flat list of integers.  The entries are kept as
    they are (a float64 array made of integers beyond 2^53 holds them
    unrounded here). *)
Definition array_of_list (lb : Lib) (l : list Z) : ndarray :=
  NdArray lb (list_dtype l) [length l] l.

(** Python's index normalisation for a sequence of length [n]: negative
    indices count from the end. *)
Definition py_index (n : nat) (i : Z) : option nat :=
  if (0 <=? i) && (i <? Z.of_nat n) then Some (Z.to_nat i)
  else if (- Z.of_nat n <=? i) && (i <? 0) then Some (Z.to_nat (i + Z.of_nat n))
  else None.

(** Python's slice-bound normalisation: negative bounds count from the end,
    then the bound is clamped to [0, n]. *)
Definition slice_bound (n : nat) (i : Z) : nat :=
  Z.to_nat (Z.max 0 (Z.min (Z.of_nat n) (if i <? 0 then i + Z.of_nat n else i))).

(** [l[start:stop]] on a Python sequence. *)
Definition py_slice {A} (l : list A) (start stop : Z) : list A :=
  let s := slice_bound (length l) start in
  let e := slice_bound (length l) stop in
  take (e - s) (drop s l).

(** [a[i]] along the first axis. *)
Definition nd_getitem (a : ndarray) (i : Z) : result ndarray :=
  match nd_shape a with
  | [] => Raise IndexError
  | n :: rest =>
      match py_index n i with
      | Some k =>
          let stride := size_of rest in
          Ok (NdArray (nd_lib a) (nd_dtype a) rest
                (take stride (drop (k * stride) (nd_data a))))
      | None => Raise IndexError
      end
  end.

(** [a.item()]: the single element of a size-one array. *)
Definition item (a : ndarray) : result Z :=
  match nd_data a with
  | [x] => Ok x
  | _ => Raise (ValueError "can only convert an array of size 1 to a Python scalar")
  end.

(** [a[start:stop]] along the first axis; an omitted bound is [None]. *)
Definition nd_slice (a : ndarray) (start stop : option Z) : result ndarray :=
  match nd_shape a with
  | [] => Raise IndexError
  | n :: rest =>
      let s := from_option (slice_bound n) 0%nat start in
      let e := from_option (slice_bound n) n stop in
      let stride := size_of rest in
      Ok (NdArray (nd_lib a) (nd_dtype a) ((e - s)%nat :: rest)
            (take ((e - s) * stride) (drop (s * stride) (nd_data a))))
  end.

(** Wrap-around to 32 and to 64 bits, signed. *)
Definition to_int32 (z : Z) : Z := (z + 2 ^ 31) mod 2 ^ 32 - 2 ^ 31.

Definition to_int64 (z : Z) : Z := (z + 2 ^ 63) mod 2 ^ 64 - 2 ^ 63.

(** The value an array of dtype [dt] holds for the integer result [z] of an
    operation on its entries: fixed-width integers wrap around. *)
Definition wrap_dtype (dt : DType) (z : Z) : Z :=
  match dt with
  | Int32 => to_int32 z
  | Int64 => to_int64 z
  | UInt64 => z mod 2 ^ 64
  | Float32 | Float64 | Object => z
  end.

(** [a - b] for two arrays of the same shape and dtype. *)
Definition nd_sub (a b : ndarray) : result ndarray :=
  if bool_decide (nd_shape a = nd_shape b) then
    Ok (NdArray (nd_lib a) (nd_dtype a) (nd_shape a)
          (map (wrap_dtype (nd_dtype a)) (zip_with Z.sub (nd_data a) (nd_data b))))
  else Raise (ValueError "operands could not be broadcast together").

(** [len(a)]. *)
Definition nd_len (a : ndarray) : result nat :=
  match nd_shape a with
  | [] => Raise (TypeError "len() of unsized object")
  | n :: _ => Ok n
  end.

(** [a.flatten()]. *)
Definition flatten (a : ndarray) : ndarray :=
  NdArray (nd_lib a) (nd_dtype a) [size_of (nd_shape a)] (nd_data a).

(** Running (inclusive) sums, the buffer of [np.cumsum]. *)
Fixpoint cumsum_from (acc : Z) (l : list Z) : list Z :=
  match l with
  | [] => []
  | x :: l' => (acc + x) :: cumsum_from (acc + x) l'
  end.

Definition cumsum (l : list Z) : list Z := cumsum_from 0 l.

(** [sum(l)]. *)
Definition sum_list (l : list Z) : Z := foldr Z.add 0 l.

(** The dtype [np.cumsum] accumulates in: int32 is widened to int64. *)
Definition cumsum_dtype (dt : DType) : DType :=
  match dt with
  | Int32 => Int64
  | _ => dt
  end.

(** [np.cumsum(x)]: the input is flattened; a list is first made a host
    array.  The running sums are those of the integers, which is what numpy
    returns as long as they stay within the accumulating dtype. *)
Definition np_cumsum (x : pyval) : result ndarray :=
  match x with
  | PyNone => Raise (TypeError "unsupported operand type(s): NoneType")
  | PyList l =>
      Ok (NdArray Numpy (cumsum_dtype (list_dtype l)) [length l] (cumsum l))
  | PyArray a =>
      Ok (NdArray (nd_lib a) (cumsum_dtype (nd_dtype a)) [length (nd_data a)]
            (cumsum (nd_data a)))
  end.

(** [a - k] for a scalar [k]. *)
Definition nd_sub_scalar (a : ndarray) (k : Z) : ndarray :=
  NdArray (nd_lib a) (nd_dtype a) (nd_shape a) (map (fun x => x - k) (nd_data a)).

(** The two transfer functions handed to [_device_move]. *)
Inductive array_fn := cupy_asarray | cupy_asnumpy.

Definition fn_target (fn : array_fn) : Lib :=
  match fn with cupy_asarray => Cupy | cupy_asnumpy => Numpy end.

(** [fn(a)] on an array: same shape, dtype and elements, in the target
    library's memory. *)
Definition apply_fn (fn : array_fn) (a : ndarray) : ndarray :=
  NdArray (fn_target fn) (nd_dtype a) (nd_shape a) (nd_data a).

(** [fn(l)] on a Python list. *)
Definition apply_fn_list (fn : array_fn) (l : list Z) : ndarray :=
  array_of_list (fn_target fn) l.

(** ** Module-level helpers of dictarray.py *)

Inductive Device := CPU | GPU.

Definition Device_eqb (a b : Device) : bool :=
  match a, b with
  | CPU, CPU | GPU, GPU => true
  | _, _ => false
  end.

(** [_array_lib()]: cupy when it could be imported, numpy otherwise.  The
    flag [cupy] is the truth value of the module-level name [cupy]; an
    imported cupy is taken to be usable (a device is present). *)
Definition _array_lib (cupy : bool) : Lib := if cupy then Cupy else Numpy.

(** [_make_array(value)]. *)
Definition _make_array (cupy : bool) (value : pyval) : pyval :=
  match value with
  | PyList l => PyArray (array_of_list (_array_lib cupy) l)
  | _ => value
  end.

(** ** The Column object *)

Record Column := mkColumn {
  values : ndarray;
  row_lengths : pyval;
  dtype : DType;
  _device : Device
}.

(** ** Object store

    [Column] instances and dictionary views are heap objects; a reference is
    the position of the object in the store and doubles as the object's
    identity. *)

Definition ref := nat.

Inductive object :=
| OColumn (c : Column)
| ODictValues (items : list (string * ref)).

Definition heap := list object.

Definition M (A : Type) : Type := heap -> result A * heap.

Definition ret {A} (a : A) : M A := fun h => (Ok a, h).

Definition raise {A} (e : exception) : M A := fun h => (Raise e, h).

Definition bind {A B} (m : M A) (k : A -> M B) : M B :=
  fun h =>
    match m h with
    | (Ok a, h') => k a h'
    | (Raise e, h') => (Raise e, h')
    end.

Definition lift {A} (r : result A) : M A := fun h => (r, h).

Declare Scope heap_scope.
Delimit Scope heap_scope with heap.
Notation "x <- m ;; k" := (bind m (fun x => k))
  (at level 100, m at next level, right associativity) : heap_scope.
Open Scope heap_scope.

(** Allocation of a fresh object; its identity is new. *)
Definition alloc (o : object) : M ref :=
  fun h => (Ok (length h), h ++ [o]).

Definition get_column (r : ref) : M Column :=
  fun h =>
    match h !! r with
    | Some (OColumn c) => (Ok c, h)
    | _ => (Raise InvalidRef, h)
    end.

Definition put_column (r : ref) (c : Column) : M unit :=
  fun h => (Ok tt, <[r := OColumn c]> h).

(** An element read out of a Python sequence: a Python [int] (from a list)
    or an array element / sub-array (from an array). *)
Inductive pyelem :=
| PyInt (z : Z)
| PyNd (a : ndarray).

(** [x[i]]. *)
Definition py_getitem (x : pyval) (i : Z) : result pyelem :=
  match x with
  | PyNone => Raise (TypeError "'NoneType' object is not subscriptable")
  | PyList l =>
      match py_index (length l) i with
      | Some k =>
          match l !! k with
          | Some z => Ok (PyInt z)
          | None => Raise IndexError
          end
      | None => Raise IndexError
      end
  | PyArray a => let? e := nd_getitem a i in Ok (PyNd e)
  end.

(** [e.item()]: Python integers have no such method. *)
Definition py_item (e : pyelem) : result Z :=
  match e with
  | PyInt _ => Raise (AttributeError "'int' object has no attribute 'item'")
  | PyNd a => item a
  end.

(** The value returned by the [shape] property. *)
Inductive shape_value :=
| RowsDim (rows : nat) (dim : option pyelem)
| NativeShape (s : list nat).

(** The argument of the [device] setter: a [Device] or a string. *)
Inductive device_arg :=
| ArgDevice (d : Device)
| ArgStr (s : string).

Definition no_cupy_msg : string :=
  "Unable to move Column data between CPU and GPU without Cupy installed.".

Module Column.

(** [Column.__init__]: the fields of the new object, or the exception. *)
Definition __init__ (cupy : bool) (values_in row_lengths_in : pyval)
  : result Column :=
  match _make_array cupy values_in with
  | PyArray v =>
      let rl := _make_array cupy row_lengths_in in
      let rl :=
        match nd_shape v with
        | [rows; width] => PyList (replicate rows (Z.of_nat width))
        | _ => rl
        end in
      match nd_lib v with
      | Numpy => Ok (mkColumn v rl (nd_dtype v) CPU)
      | Cupy =>
          if cupy then Ok (mkColumn v rl (nd_dtype v) GPU)
          else Raise (TypeError "Column only supports values of type numpy.ndarray or cupy.ndarray.")
      | Foreign =>
          Raise (TypeError "Column only supports values of type numpy.ndarray or cupy.ndarray.")
      end
  | _ => Raise (AttributeError "object has no attribute 'dtype'")
  end.

(** The constructor call [Column(values, row_lengths)]. *)
Definition new (cupy : bool) (values_in row_lengths_in : pyval) : M ref :=
  c <- lift (__init__ cupy values_in row_lengths_in);;
  alloc (OColumn c).

(** [device] getter. *)
Definition device (self : Column) : Device := _device self.

(** [offsets] property: [np.cumsum(self.row_lengths) - 1]. *)
Definition offsets (self : Column) : result ndarray :=
  let? c := np_cumsum (row_lengths self) in
  Ok (nd_sub_scalar c 1).

(** [_device_move]. *)
Definition _device_move (fn : array_fn) (self : ref) : M unit :=
  c <- get_column self;;
  let values' := apply_fn fn (values c) in
  let row_lengths' :=
    match row_lengths c with
    | PyNone => PyNone
    | PyList l => PyArray (apply_fn_list fn l)
    | PyArray a => PyArray (apply_fn fn a)
    end in
  put_column self (mkColumn values' row_lengths' (dtype c) (_device c)).

(** [device] setter. *)
Definition device_setter (cupy : bool) (device : device_arg) (self : ref)
  : M unit :=
  if negb cupy then raise (ValueError no_cupy_msg)
  else
    let device :=
      match device with
      | ArgStr s =>
          if String.eqb s "cpu" then ArgDevice CPU
          else if String.eqb s "gpu" then ArgDevice GPU
          else device
      | _ => device
      end in
    c <- get_column self;;
    match _device c, device with
    | CPU, ArgDevice GPU => _device_move cupy_asarray self
    | GPU, ArgDevice CPU => _device_move cupy_asnumpy self
    | _, _ => ret tt
    end.

(** [cpu()]: assigns the [device] property and returns [self]. *)
Definition cpu (cupy : bool) (self : ref) : M ref :=
  _ <- device_setter cupy (ArgDevice CPU) self;;
  ret self.

(** [gpu()]. *)
Definition gpu (cupy : bool) (self : ref) : M ref :=
  _ <- device_setter cupy (ArgDevice GPU) self;;
  ret self.

(** [__getitem__]. *)
Definition __getitem__ (self : Column) (index : Z) : result ndarray :=
  match row_lengths self with
  | PyNone => nd_getitem (values self) index
  | rl =>
      let? offs := offsets self in
      let? o := nd_getitem offs index in
      let? start := item o in
      let? e := py_getitem rl index in
      let? len := py_item e in
      let stop := start + len in
      nd_slice (values self) (Some start) (Some stop)
  end.

(** [__len__]. *)
Definition __len__ (self : Column) : result nat :=
  match row_lengths self with
  | PyNone => nd_len (values self)
  | PyList l => Ok (length l)
  | PyArray a => nd_len a
  end.

(** [is_ragged]: [row_lengths is not None and
    any(row_lengths != row_lengths[0])].  Comparing a Python list with an
    integer gives the single boolean [True], over which [any] cannot
    iterate; iterating a comparison result whose rows hold more than one
    element has no truth value. *)
Definition is_ragged (self : Column) : result bool :=
  match row_lengths self with
  | PyNone => Ok false
  | PyList l =>
      match l with
      | [] => Raise IndexError
      | _ => Raise (TypeError "'bool' object is not iterable")
      end
  | PyArray a =>
      let? first := nd_getitem a 0 in
      if (1 <? size_of (nd_shape first))%nat then
        Raise (ValueError "The truth value of an array with more than one element is ambiguous.")
      else
        Ok (existsb (fun x => negb (x =? default 0 (head (nd_data first))))
              (nd_data a))
  end.

(** [shape]. *)
Definition shape (self : Column) : result shape_value :=
  match row_lengths self with
  | PyNone => Ok (NativeShape (nd_shape (values self)))
  | rl =>
      let? ragged := is_ragged self in
      let? dim :=
        if ragged then (let? e := py_getitem rl 0 in Ok (Some e))
        else Ok None in
      let? n := __len__ self in
      Ok (RowsDim n dim)
  end.

(** [is_list].  Indexing a host array of rank one gives a scalar, which
    is not an array; indexing a cupy array gives a zero-dimensional
    [cupy.ndarray]. *)
Definition is_list (cupy : bool) (self : Column) : result bool :=
  if (1 <? length (nd_shape (values self)))%nat then Ok true
  else
    match row_lengths self with
    | PyNone =>
        let? v0 := nd_getitem (values self) 0 in
        Ok (cupy && Lib_eqb (nd_lib v0) Cupy)
    | _ => Ok true
    end.

End Column.

(** ** _make_column *)

(** What [_make_column] can be handed: an existing [Column] object, a
    [(values, row_lengths)] tuple, or any other value. *)
Inductive column_input :=
| InColumn (c : ref)
| InTuple (values_in row_lengths_in : pyval)
| InValue (v : pyval).

Definition _make_column (cupy : bool) (value : column_input) : M ref :=
  match value with
  | InColumn c => ret c
  | InTuple v rl => Column.new cupy v rl
  | InValue (PyArray a) =>
      match nd_shape a with
      | _ :: _ :: _ :: _ =>
          raise (ValueError "Values with dimensions higher than 2 aren't supported.")
      | [num_values; width] =>
          Column.new cupy (PyArray (flatten a))
            (PyList (replicate num_values (Z.of_nat width)))
      | _ => Column.new cupy (PyArray a) PyNone
      end
  | InValue _ => raise (AttributeError "object has no attribute 'shape'")
  end.

(** ** Dataframes

    A dataframe is an ordered map from column names to series.  A pandas
    list column holds one sub-array per row; a cudf list column holds one
    flat element buffer and an offsets buffer. *)

Inductive DfLib := Pandas | Cudf.

Inductive Series :=
| PdSeries (a : ndarray)
| PdListSeries (rows : list ndarray)
| CudfSeries (a : ndarray)
| CudfListSeries (elements offsets : ndarray).

Definition DataFrame := list (string * Series).

(** [df_lib.Series(x)]: the one-dimensional buffer of the new series, in the
    memory of the dataframe library. *)
Definition Series_buffer (df_lib : DfLib) (x : pyval) : result ndarray :=
  match x with
  | PyNone =>
      Ok (NdArray (match df_lib with Pandas => Numpy | Cudf => Cupy end) Object [0%nat] [])
  | PyList l =>
      Ok (array_of_list (match df_lib with Pandas => Numpy | Cudf => Cupy end) l)
  | PyArray a =>
      match nd_shape a with
      | [_] =>
          match df_lib, nd_lib a with
          | Pandas, Numpy => Ok a
          | Pandas, _ => Raise (TypeError "Implicit conversion to a NumPy array is not allowed.")
          | Cudf, _ => Ok (apply_fn cupy_asarray a)
          end
      | _ => Raise (ValueError "Data must be 1-dimensional")
      end
  end.

(** Modelled from the spec: [build_pandas_list_column] of
    [merlin.core.dispatch] is not part of the sources.  Section 4.2,
    Encoding A construction: slice the values at each
    [offset(i), offset(i) + row_lengths(i)), the offset being the running sum
    of the preceding row lengths, and materialise one sub-sequence per
    row. *)
Fixpoint build_pandas_rows (elements : ndarray) (offset : Z) (lengths : list Z)
  : list ndarray :=
  match lengths with
  | [] => []
  | row_length :: rest =>
      let row := py_slice (nd_data elements) offset (offset + row_length) in
      NdArray (nd_lib elements) (nd_dtype elements) [length row] row
        :: build_pandas_rows elements (offset + row_length) rest
  end.

Definition build_pandas_list_column (elements row_lengths_series : ndarray) : Series :=
  PdListSeries (build_pandas_rows elements 0 (nd_data row_lengths_series)).

(** Modelled from the spec: [build_cudf_list_column] of
    [merlin.core.dispatch] is not part of the sources.  Section 4.2,
    Encoding B: a single flat buffer shared by all rows, accompanied by the
    boundary array it is given. *)
Definition build_cudf_list_column (new_elements new_offsets : ndarray) : Series :=
  CudfListSeries new_elements new_offsets.

(** Modelled from the spec: [is_list_dtype] of [merlin.core.dispatch] is not
    part of the sources.  Section 4.3: detect whether the source column is
    list-typed; a pandas series is inspected through its first row. *)
Definition is_list_dtype (series : Series) : bool :=
  match series with
  | PdSeries _ | CudfSeries _ => false
  | PdListSeries rows => negb (bool_decide (rows = []))
  | CudfListSeries _ _ => true
  end.

(** A boundary array that never decreases. *)
Fixpoint nondecreasing (b : list Z) : bool :=
  match b with
  | x :: t =>
      match t with
      | y :: _ => (x <=? y) && nondecreasing t
      | [] => true
      end
  | [] => true
  end.

(** Modelled from the spec: [flatten_list_column_values(...).values] of
    [merlin.core.dispatch] is not part of the sources.  Section 4.2:
    concatenation of the sub-sequences in row order (Encoding A), the flat
    buffer itself (Encoding B); an Encoding-B input whose boundary array is
    not monotonically non-decreasing, or whose final entry disagrees with
    the buffer length, fails with MalformedOffsetsError. *)
Definition flatten_list_column_values (series : Series) : result ndarray :=
  match series with
  | PdSeries a | CudfSeries a => Ok a
  | PdListSeries rows =>
      let elems := concat (map nd_data rows) in
      Ok (NdArray Numpy (from_option nd_dtype Float64 (head rows)) [length elems] elems)
  | CudfListSeries elements offs =>
      let? m := nd_len elements in
      if nondecreasing (nd_data offs)
         && bool_decide (last (nd_data offs) = Some (Z.of_nat m))
      then Ok elements
      else Raise MalformedOffsetsError
  end.

(** [series.to_numpy()]; list series only reach it when they have no row. *)
Definition to_numpy (series : Series) : ndarray :=
  match series with
  | PdSeries a => a
  | CudfSeries a => apply_fn cupy_asnumpy a
  | PdListSeries rows => NdArray Numpy Object [length rows] []
  | CudfListSeries elements _ => NdArray Numpy Object [0%nat] []
  end.

(** [mapM] over [result]. *)
Fixpoint result_map {A B} (f : A -> result B) (l : list A) : result (list B) :=
  match l with
  | [] => Ok []
  | x :: l' =>
      let? y := f x in
      let? ys := result_map f l' in
      Ok (y :: ys)
  end.

(** [get_series_offsets]. *)
Definition get_series_offsets (series : Series) : result ndarray :=
  if negb (is_list_dtype series) then Ok (NdArray Numpy Float64 [0%nat] [])
  else
    match series with
    | PdSeries _ => Ok (array_of_list Numpy [])
    | PdListSeries rows =>
        let? lens := result_map nd_len rows in
        Ok (array_of_list Numpy (map Z.of_nat lens))
    | CudfSeries a => Raise (AttributeError "column has no attribute 'offsets'")
    | CudfListSeries _ offs =>
        let? hi := nd_slice offs (Some 1) None in
        let? lo := nd_slice offs None (Some (-1)) in
        nd_sub hi lo
    end.

(** ** The DictArray object *)

Record DictArray := mkDictArray {
  _columns : list (string * ref)
}.

(** [d[key]] on an insertion-ordered dictionary. *)
Fixpoint dict_get {V} (d : list (string * V)) (key : string) : option V :=
  match d with
  | [] => None
  | (k, v) :: d' => if String.eqb k key then Some v else dict_get d' key
  end.

(** [d[key] = v]: an existing key keeps its position. *)
Fixpoint dict_set {V} (d : list (string * V)) (key : string) (v : V)
  : list (string * V) :=
  match d with
  | [] => [(key, v)]
  | (k, w) :: d' =>
      if String.eqb k key then (k, v) :: d' else (k, w) :: dict_set d' key v
  end.

(** [len(series)]. *)
Definition series_len (series : Series) : result nat :=
  match series with
  | PdSeries a | CudfSeries a => nd_len a
  | PdListSeries rows => Ok (length rows)
  | CudfListSeries _ offs => let? n := nd_len offs in Ok (n - 1)%nat
  end.

(** [df[col] = series].  The first column gives the frame its index; a
    later series is aligned on that index: it is stored as it is when it has
    as many rows, and a longer pandas series loses its surplus rows.  A
    shorter series would be padded with missing values, and a frame without
    rows would take over the index of a series with rows and pad its own
    columns; the same goes for cudf series of another length, whose nulls
    and sliced list columns are not represented either. *)
Definition frame_assign (df : DataFrame) (col : string) (series : Series)
  : result DataFrame :=
  match df with
  | [] => Ok [(col, series)]
  | (_, first) :: _ =>
      let? n := series_len first in
      let? k := series_len series in
      if (k =? n)%nat then Ok (dict_set df col series)
      else if (n =? 0)%nat then
        Raise (Unmodelled "a frame without rows takes the index of the new column")
      else if (n <? k)%nat then
        match series with
        | PdSeries a =>
            let? a' := nd_slice a None (Some (Z.of_nat n)) in
            Ok (dict_set df col (PdSeries a'))
        | PdListSeries rows => Ok (dict_set df col (PdListSeries (take n rows)))
        | _ => Raise (Unmodelled "cudf series aligned on a shorter index")
        end
      else Raise (Unmodelled "series padded with missing values")
  end.

(** [d1 == d2] on dictionaries of dtypes: same keys, same value per key. *)
Definition dtypes_eq (d1 d2 : list (string * DType)) : bool :=
  (length d1 =? length d2)%nat
  && forallb (fun kv =>
       match dict_get d2 kv.1 with
       | Some t => DType_eqb kv.2 t
       | None => false
       end) d1.

(** The default [object.__eq__]: identity. *)
Definition object_eq (a b : ref) : bool := (a =? b)%nat.

Module DictArray.

(** The dictionary comprehension of [__init__], entry by entry. *)
Fixpoint make_columns (cupy : bool) (values_in : list (string * column_input))
    (acc : list (string * ref)) : M (list (string * ref)) :=
  match values_in with
  | [] => ret acc
  | (key, value) :: rest =>
      c <- _make_column cupy value;;
      make_columns cupy rest (dict_set acc key c)
  end.

(** [DictArray.__init__]; [None] and the empty dictionary are both []. *)
Definition __init__ (cupy : bool) (values_in : list (string * column_input))
  : M DictArray :=
  cols <- make_columns cupy values_in [];;
  ret (mkDictArray cols).

Definition columns (self : DictArray) : list string := map fst (_columns self).

(** [__getitem__] with a single column name. *)
Definition __getitem__ (self : DictArray) (key : string) : M ref :=
  match dict_get (_columns self) key with
  | Some c => ret c
  | None => raise (KeyError key)
  end.

(** The body of the loop of [to_df] for one column. *)
Definition to_df_column (cupy : bool) (df_lib : DfLib) (c : Column)
  : result Series :=
  let? is_list := Column.is_list cupy c in
  if is_list then
    let? values_series := Series_buffer df_lib (PyArray (values c)) in
    match df_lib with
    | Pandas =>
        let? row_lengths_series := Series_buffer df_lib (row_lengths c) in
        Ok (build_pandas_list_column values_series row_lengths_series)
    | Cudf =>
        let? values_size := nd_len (values c) in
        let? offs := Column.offsets c in
        let offsets_series :=
          NdArray Cupy Int32 [S (length (nd_data offs))]
            (map to_int32 (nd_data offs ++ [Z.of_nat values_size])) in
        Ok (build_cudf_list_column values_series offsets_series)
    end
  else
    let? s := Series_buffer df_lib (PyArray (values c)) in
    Ok (match df_lib with Pandas => PdSeries s | Cudf => CudfSeries s end).

(** [to_df]; [df_lib] is the library [get_lib()] returns. *)
Fixpoint to_df_items (cupy : bool) (df_lib : DfLib) (items : list (string * ref))
    (df : DataFrame) : M DataFrame :=
  match items with
  | [] => ret df
  | (col, r) :: rest =>
      c <- get_column r;;
      s <- lift (to_df_column cupy df_lib c);;
      df' <- lift (frame_assign df col s);;
      to_df_items cupy df_lib rest df'
  end.

Definition to_df (cupy : bool) (df_lib : DfLib) (self : DictArray) : M DataFrame :=
  to_df_items cupy df_lib (_columns self) [].

(** The body of the loop of [from_df] for one column. *)
Definition from_df_column (series : Series) : result column_input :=
  if is_list_dtype series then
    let? vals := flatten_list_column_values series in
    let? lens := get_series_offsets series in
    Ok (InTuple (PyArray vals) (PyArray lens))
  else Ok (InValue (PyArray (to_numpy series))).

Fixpoint from_df_items (df : DataFrame) (array_dict : list (string * column_input))
  : result (list (string * column_input)) :=
  match df with
  | [] => Ok array_dict
  | (col, series) :: rest =>
      let? v := from_df_column series in
      from_df_items rest (dict_set array_dict col v)
  end.

(** [from_df]. *)
Definition from_df (cupy : bool) (df : DataFrame) : M DictArray :=
  array_dict <- lift (from_df_items df []);;
  __init__ cupy array_dict.

(** [dtypes()]. *)
Fixpoint dtypes_of (items : list (string * ref)) (acc : list (string * DType))
  : M (list (string * DType)) :=
  match items with
  | [] => ret acc
  | (key, r) :: rest =>
      c <- get_column r;;
      dtypes_of rest (dict_set acc key (dtype c))
  end.

Definition dtypes (self : DictArray) : M (list (string * DType)) :=
  dtypes_of (_columns self) [].

(** [values()]: a new view object over the dictionary. *)
Definition values (self : DictArray) : M ref :=
  alloc (ODictValues (_columns self)).

(** [__eq__]: [self.values() == other.values() and
    self.dtypes() == other.dtypes()].  The views do not define equality,
    so they are compared as objects; [and] evaluates its right operand only
    when the left one is true. *)
Definition __eq__ (self other : DictArray) : M bool :=
  v1 <- values self;;
  v2 <- values other;;
  if object_eq v1 v2 then
    d1 <- dtypes self;;
    d2 <- dtypes other;;
    ret (dtypes_eq d1 d2)
  else ret false.

End DictArray.

(** ** Further methods of Column and DictArray *)

(** The [_array_lib] property of [Column]: cupy for a column tagged [GPU]
    when cupy could be imported, numpy otherwise. *)
Definition Column_array_lib (cupy : bool) (self : Column) : Lib :=
  if cupy && Device_eqb (Column.device self) GPU then Cupy else Numpy.

(** [del d[key]] on an insertion-ordered dictionary; [None] when the key is
    absent. *)
Fixpoint dict_del {V} (d : list (string * V)) (key : string)
  : option (list (string * V)) :=
  match d with
  | [] => None
  | (k, v) :: d' =>
      if String.eqb k key then Some d'
      else match dict_del d' key with
           | Some d'' => Some ((k, v) :: d'')
           | None => None
           end
  end.

(** [d.update(other)], entry by entry. *)
Definition dict_update {V} (d other : list (string * V)) : list (string * V) :=
  foldl (fun acc kv => dict_set acc kv.1 kv.2) d other.

(** A dictionary whose values are already [Column] objects, as the
    argument of [DictArray(...)]. *)
Definition as_inputs (items : list (string * ref)) : list (string * column_input) :=
  map (fun kc => (kc.1, InColumn kc.2)) items.

Module DictArrayOps.

(** [__len__]: the number of columns. *)
Definition __len__ (self : DictArray) : nat := length (_columns self).

(** [keys()] and [__iter__]: the column names, in insertion order. *)
Definition keys (self : DictArray) : list string := map fst (_columns self).

(** [items()]. *)
Definition items (self : DictArray) : list (string * ref) := _columns self.

(** [__setitem__]: the table after [self[key] = value]. *)
Definition __setitem__ (cupy : bool) (self : DictArray) (key : string)
    (value : column_input) : M DictArray :=
  c <- _make_column cupy value;;
  ret (mkDictArray (dict_set (_columns self) key c)).

(** [__delitem__]: the table after [del self[key]]. *)
Definition __delitem__ (self : DictArray) (key : string) : result DictArray :=
  match dict_del (_columns self) key with
  | Some d => Ok (mkDictArray d)
  | None => Raise (KeyError key)
  end.

(** The dictionary comprehension [{k: self._columns[k] for k in key}]. *)
Fixpoint select_items (cols : list (string * ref)) (key : list string)
    (acc : list (string * ref)) : result (list (string * ref)) :=
  match key with
  | [] => Ok acc
  | k :: rest =>
      match dict_get cols k with
      | Some c => select_items cols rest (dict_set acc k c)
      | None => Raise (KeyError k)
      end
  end.

(** [__getitem__] with a list of column names. *)
Definition __getitem__list (cupy : bool) (self : DictArray) (key : list string)
  : M DictArray :=
  d <- lift (select_items (_columns self) key []);;
  DictArray.__init__ cupy (as_inputs d).

(** [update(other)] with a dictionary of columns: the table afterwards. *)
Definition update (self : DictArray) (other : list (string * ref)) : DictArray :=
  mkDictArray (dict_update (_columns self) other).

(** [copy()]: [DictArray(self._columns.copy())]. *)
Definition copy (cupy : bool) (self : DictArray) : M DictArray :=
  DictArray.__init__ cupy (as_inputs (_columns self)).

End DictArrayOps.

(** ** tests/unit/systems/hugectr/test_hugectr.py *)





(** * Properties *)

(** ** Specification-side definitions *)

(** The exclusive prefix sum of the row lengths, as the specification
    defines the start of row [i]: [offset(0) = 0],
    [offset(i) = offset(i-1) + row_lengths(i-1)]. *)
Fixpoint spec_offset (lengths : list Z) (i : nat) : Z :=
  match i with
  | O => 0
  | S j => spec_offset lengths j + default 0 (lengths !! j)
  end.

(** The row the specification asks for:
    [values[offset(i) : offset(i) + row_lengths(i)]]. *)
Definition spec_row (vals lengths : list Z) (i : nat) : list Z :=
  py_slice vals (spec_offset lengths i)
    (spec_offset lengths i + default 0 (lengths !! i)).

(** The numbers held by a Python value, without the container. *)
Definition pyval_data (x : pyval) : option (list Z) :=
  match x with
  | PyNone => None
  | PyList l => Some l
  | PyArray a => Some (nd_data a)
  end.

(** Invariant I1: when [row_lengths] is present, its sum is [len(values)]. *)
Definition I1 (c : Column) : bool :=
  match pyval_data (row_lengths c) with
  | None => true
  | Some l =>
      match nd_len (values c) with
      | Ok n => sum_list l =? Z.of_nat n
      | Raise _ => false
      end
  end.

(** The same condition on the arguments handed to the constructor. *)
Definition pair_consistent (values_in row_lengths_in : pyval) : bool :=
  match pyval_data row_lengths_in with
  | None => true
  | Some l =>
      match values_in with
      | PyNone => false
      | PyList v => sum_list l =? Z.of_nat (length v)
      | PyArray a =>
          match nd_len a with
          | Ok n => sum_list l =? Z.of_nat n
          | Raise _ => false
          end
      end
  end.

(** Shape and elements of a buffer: what a transfer must leave alone. *)
Definition numeric (a : ndarray) : list nat * list Z := (nd_shape a, nd_data a).

Definition numeric_py (x : pyval) : option (list nat * list Z) :=
  match x with
  | PyNone => None
  | PyList l => Some ([length l], l)
  | PyArray a => Some (numeric a)
  end.

(** Row lengths read off a boundary array: [b(i+1) - b(i)]. *)
Definition adjacent_diffs (b : list Z) : list Z := zip_with Z.sub (drop 1 b) b.

(** The column stored under [key], read through the store. *)
Definition column_of (d : DictArray) (key : string) : M Column :=
  r <- DictArray.__getitem__ d key;;
  get_column r.

(** [from_df(to_df(T))]. *)
Definition round_trip (cupy : bool) (df_lib : DfLib) (T : DictArray) : M DictArray :=
  df <- DictArray.to_df cupy df_lib T;;
  DictArray.from_df cupy df.

(** The spec's name for the exception raised when cupy is missing. *)
Definition AcceleratorUnavailableError : exception := ValueError no_cupy_msg.

(** What [_device_move] does to a column. *)
Definition moved (fn : array_fn) (c : Column) : Column :=
  mkColumn (apply_fn fn (values c))
    match row_lengths c with
    | PyNone => PyNone
    | PyList l => PyArray (apply_fn_list fn l)
    | PyArray a => PyArray (apply_fn fn a)
    end
    (dtype c) (_device c).

(** A host column [[1, 2, 3]] without row lengths. *)
Definition host_column : Column :=
  mkColumn (array_of_list Numpy [1; 2; 3]) PyNone Int64 CPU.

(** The array of shape [(3, 4)] holding 1 to 12. *)
Definition array_3x4 : ndarray :=
  NdArray Numpy Int64 [3; 4]%nat [1; 2; 3; 4; 5; 6; 7; 8; 9; 10; 11; 12].

(** One column on its way through [to_df] and [from_df]: its name, its
    reference, the column, the series made of it and the value handed to the
    constructor. *)
Definition trip : Type := string * ref * Column * Series * column_input.

Definition trip_key (x : trip) : string := x.1.1.1.1.
Definition trip_ref (x : trip) : ref := x.1.1.1.2.
Definition trip_col (x : trip) : Column := x.1.1.2.
Definition trip_series (x : trip) : Series := x.1.2.
Definition trip_input (x : trip) : column_input := x.2.

(** [c] survives the round trip through [df_lib]: [to_df] makes a series of
    [k] rows of it, [from_df] succeeds on that series and the constructor
    rebuilds a column equal to [c]. *)
Definition survives (cupy : bool) (df_lib : DfLib) (k : nat) (c : Column) : Prop :=
  exists s inp,
    DictArray.to_df_column cupy df_lib c = Ok s
    /\ series_len s = Ok k
    /\ DictArray.from_df_column s = Ok inp
    /\ forall h, _make_column cupy inp h = (Ok (length h), h ++ [OColumn c]).

(** The frame is empty or has [k] rows. *)
Definition frame_rows (df : DataFrame) (k : nat) : Prop :=
  match df with
  | [] => True
  | (_, first) :: _ => series_len first = Ok k
  end.

(** A flat, non-empty host column as the constructor builds it. *)
Definition flat_host_column (c : Column) : Prop :=
  row_lengths c = PyNone
  /\ nd_lib (values c) = Numpy
  /\ (exists m, nd_shape (values c) = [S m])
  /\ dtype c = nd_dtype (values c)
  /\ _device c = CPU.

(** A ragged host column as the constructor builds it from a non-empty
    buffer: at least one row, non-negative int64 row lengths, and I1. *)
Definition ragged_host_column (c : Column) : Prop :=
  exists (rl : ndarray) (n m : nat),
    row_lengths c = PyArray rl
    /\ nd_lib rl = Numpy /\ nd_dtype rl = Int64
    /\ nd_shape rl = [S n] /\ length (nd_data rl) = S n
    /\ Forall (fun z => 0 <= z) (nd_data rl)
    /\ sum_list (nd_data rl) = Z.of_nat (S m)
    /\ Z.of_nat (S m) < 2 ^ 63
    /\ nd_lib (values c) = Numpy
    /\ nd_shape (values c) = [S m] /\ length (nd_data (values c)) = S m
    /\ dtype c = nd_dtype (values c)
    /\ _device c = CPU.

(** The ragged host column [Column([1,2,3,4,5,6], row_lengths=[2,3,1])]. *)
Definition ragged_example : Column :=
  mkColumn (array_of_list Numpy [1; 2; 3; 4; 5; 6])
    (PyArray (array_of_list Numpy [2; 3; 1])) Int64 CPU.

(** Both buffers of a column live in the memory of library [lb]. *)
Definition buffers_in (lb : Lib) (c : Column) : Prop :=
  nd_lib (values c) = lb
  /\ (row_lengths c = PyNone
      \/ exists a, row_lengths c = PyArray a /\ nd_lib a = lb).

(** The library whose arrays live in a memory domain. *)
Definition domain_lib (d : Device) : Lib :=
  match d with CPU => Numpy | GPU => Cupy end.

(** Transfer of the column at [r] to the memory domain it already occupies,
    that is, the one both of its buffers live in, changes nothing and raises
    nothing, whether it is asked for through the [device] setter or through
    [cpu()] and [gpu()], which then return the same column. *)
Definition same_domain_noop (cupy : bool) (h : heap) (r : ref) : Prop :=
  forall c d,
    h !! r = Some (OColumn c) ->
    buffers_in (domain_lib d) c ->
    Column.device_setter cupy (ArgDevice d) r h = (Ok tt, h)
    /\ (match d with CPU => Column.cpu | GPU => Column.gpu end) cupy r h = (Ok r, h).

(** A malformed boundary array for a buffer of [m] values, in the
    specification's words: it decreases somewhere, or its final entry is not
    [m]. *)
Definition malformed (b : list Z) (m : nat) : Prop :=
  (exists i x y, b !! i = Some x /\ b !! S i = Some y /\ y < x)
  \/ last b <> Some (Z.of_nat m).

(** A second flat host column with three rows. *)
Definition host_column_2 : Column :=
  mkColumn (array_of_list Numpy [40; 50; 60]) PyNone Int64 CPU.

(** ** Facts about buffers *)

Lemma sum_list_replicate n (w : Z) : sum_list (replicate n w) = Z.of_nat n * w.
Proof. unfold sum_list. induction n as [|n IH]; simpl; [lia|]. rewrite IH. lia. Qed.

Lemma sum_list_nonneg (l : list Z) : Forall (fun z => 0 <= z) l -> 0 <= sum_list l.
Proof. unfold sum_list. induction 1; simpl; lia. Qed.

(** Each of a list of non-negative numbers is at most their sum. *)
Lemma sum_list_bounds (l : list Z) :
  Forall (fun z => 0 <= z) l -> Forall (fun z => 0 <= z <= sum_list l) l.
Proof.
  induction 1 as [|x l Hx Hl IH]; [constructor|].
  pose proof (sum_list_nonneg l Hl) as Hs.
  change (sum_list (x :: l)) with (x + sum_list l).
  constructor; [lia|]. eapply Forall_impl; [exact IH|]. intros z Hz. cbv beta in Hz. lia.
Qed.

Lemma slice_bound_nonneg (n : nat) (i : Z) :
  0 <= i -> slice_bound n i = Nat.min n (Z.to_nat i).
Proof. intros H. unfold slice_bound. destruct (Z.ltb_spec i 0); lia. Qed.

Lemma slice_bound_neg (n : nat) (i : Z) :
  i < 0 -> slice_bound n i = Z.to_nat (i + Z.of_nat n).
Proof. intros H. unfold slice_bound. destruct (Z.ltb_spec i 0); lia. Qed.

Lemma py_index_of_nat (n i : nat) : (i < n)%nat -> py_index n (Z.of_nat i) = Some i.
Proof.
  intros H. unfold py_index.
  destruct (Z.leb_spec 0 (Z.of_nat i)); [|lia].
  destruct (Z.ltb_spec (Z.of_nat i) (Z.of_nat n)); [|lia].
  simpl. f_equal. lia.
Qed.

Lemma take_1_drop {A} (l : list A) (i : nat) (x : A) :
  l !! i = Some x -> take 1 (drop i l) = [x].
Proof.
  revert i. induction l as [|y l IH]; intros [|i] H; simpl in *; simplify_eq;
    try done; try (by rewrite take_0); by apply IH.
Qed.

Lemma zip_with_take_r_length {A B C} (f : A -> B -> C) (l : list A) (k : list B) :
  zip_with f l (take (length l) k) = zip_with f l k.
Proof.
  revert k. induction l as [|x l IH]; intros [|y k]; simpl; try done.
  by rewrite IH.
Qed.

Lemma py_slice_inside {A} (l : list A) (off len : Z) :
  0 <= off -> 0 <= len -> off + len <= Z.of_nat (length l) ->
  py_slice l off (off + len) = take (Z.to_nat len) (drop (Z.to_nat off) l).
Proof.
  intros Ho Hl Hb. unfold py_slice.
  rewrite !slice_bound_nonneg by lia. f_equal; [lia|f_equal; lia].
Qed.

(** Slicing a flat buffer is slicing its list of elements. *)
Lemma nd_slice_flat (a : ndarray) (m : nat) (start stop : Z) :
  nd_shape a = [m] ->
  length (nd_data a) = m ->
  exists r,
    nd_slice a (Some start) (Some stop) = Ok r
    /\ nd_data r = py_slice (nd_data a) start stop
    /\ nd_lib r = nd_lib a /\ nd_dtype r = nd_dtype a.
Proof.
  intros Hs Hm. unfold nd_slice, py_slice. rewrite Hs, Hm. simpl.
  eexists. split_and!; try reflexivity. simpl. by rewrite !Nat.mul_1_r.
Qed.

Lemma spec_offset_cons (x : Z) (l : list Z) (i : nat) :
  spec_offset (x :: l) (S i) = x + spec_offset l i.
Proof. induction i as [|i IH]; simpl in *; [lia|]. rewrite IH. lia. Qed.

(** Entry [i] of the running sums is the specification's offset of row
    [i + 1]. *)
Lemma cumsum_from_lookup (l : list Z) (acc : Z) (i : nat) :
  (i < length l)%nat ->
  cumsum_from acc l !! i = Some (acc + spec_offset l (S i)).
Proof.
  revert acc i. induction l as [|x l IH]; intros acc i Hi; simpl in Hi; [lia|].
  destruct i as [|i].
  - simpl. f_equal; lia.
  - change (cumsum_from acc (x :: l) !! S i) with (cumsum_from (acc + x) l !! i).
    rewrite IH by lia. rewrite (spec_offset_cons x l (S i)). f_equal; lia.
Qed.

(** Running sums of non-negative numbers stay between the start and the
    total. *)
Lemma cumsum_from_bounds (l : list Z) (acc : Z) :
  Forall (fun z => 0 <= z) l ->
  Forall (fun z => acc <= z <= acc + sum_list l) (cumsum_from acc l).
Proof.
  intros H. revert acc. induction H as [|x l Hx Hl IH]; intros acc; simpl; [constructor|].
  pose proof (sum_list_nonneg l Hl) as Hs. unfold sum_list in *.
  constructor; [lia|].
  eapply Forall_impl; [apply IH|]. simpl. intros z Hz. lia.
Qed.

Lemma existsb_negb_forallb {A} (p : A -> bool) (l : list A) :
  existsb (fun x => negb (p x)) l = negb (forallb p l).
Proof.
  induction l as [|x l IH]; simpl; [done|].
  rewrite IH. by destruct (p x).
Qed.

Lemma to_int32_id (z : Z) : - 2 ^ 31 <= z < 2 ^ 31 -> to_int32 z = z.
Proof. intros H. unfold to_int32. rewrite Z.mod_small; lia. Qed.

Lemma map_to_int32_id (l : list Z) :
  Forall (fun z => - 2 ^ 31 <= z < 2 ^ 31) l -> map to_int32 l = l.
Proof.
  induction 1 as [|z l Hz _ IH]; simpl; [done|].
  by rewrite IH, to_int32_id.
Qed.

Lemma adjacent_diffs_cons2 (a b : Z) (t : list Z) :
  adjacent_diffs (a :: b :: t) = (b - a) :: adjacent_diffs (b :: t).
Proof. reflexivity. Qed.

(** The boundaries [to_df] hands to cudf, read back as row lengths: the
    row lengths shifted by one row, with a final 1. *)
Lemma adjacent_diffs_of_offsets (x : Z) (l : list Z) (acc : Z) :
  adjacent_diffs
    (map (fun z => z - 1) (cumsum_from acc (x :: l)) ++ [acc + sum_list (x :: l)])
  = l ++ [1].
Proof.
  revert x acc. induction l as [|y l IH]; intros x acc.
  - simpl. unfold adjacent_diffs. simpl. f_equal. lia.
  - change (cumsum_from acc (x :: y :: l))
      with ((acc + x) :: cumsum_from (acc + x) (y :: l)).
    change (cumsum_from (acc + x) (y :: l))
      with ((acc + x + y) :: cumsum_from (acc + x + y) l) at 1.
    cbn [map app]. rewrite adjacent_diffs_cons2.
    f_equal; [lia|].
    specialize (IH y (acc + x)).
    change (cumsum_from (acc + x) (y :: l))
      with ((acc + x + y) :: cumsum_from (acc + x + y) l) in IH.
    cbn [map app] in IH.
    replace (acc + sum_list (x :: y :: l)) with (acc + x + sum_list (y :: l))
      by (unfold sum_list; simpl; lia).
    exact IH.
Qed.

Lemma pyval_data_make_array cupy x : pyval_data (_make_array cupy x) = pyval_data x.
Proof. by destruct x. Qed.

(** ** Row extraction *)

(** Row [i] as the code extracts it from a ragged column with flat buffers:
    the slice of [row_lengths(i)] positions that starts one position before
    the specification's offset of row [i + 1]. *)
Lemma getitem_ragged_actual (c : Column) (rl : ndarray) (n m i : nat) (len : Z) :
  row_lengths c = PyArray rl ->
  nd_shape rl = [n] ->
  length (nd_data rl) = n ->
  nd_shape (values c) = [m] ->
  length (nd_data (values c)) = m ->
  nd_data rl !! i = Some len ->
  exists r,
    Column.__getitem__ c (Z.of_nat i) = Ok r
    /\ nd_data r
       = py_slice (nd_data (values c))
           (spec_offset (nd_data rl) i + len - 1)
           (spec_offset (nd_data rl) i + len - 1 + len).
Proof.
  intros Hr Hs Hn Hvs Hm Hi.
  assert (Hlt : (i < n)%nat) by (rewrite <- Hn; by eapply lookup_lt_Some).
  unfold Column.__getitem__, Column.offsets. rewrite Hr. simpl.
  unfold nd_getitem at 1. simpl.
  rewrite Hn, (py_index_of_nat n i Hlt). simpl.
  rewrite Nat.mul_1_r.
  assert (Hc : map (fun x => x - 1) (cumsum (nd_data rl)) !! i
               = Some (spec_offset (nd_data rl) (S i) - 1)).
  { rewrite list_lookup_fmap. unfold cumsum.
    rewrite cumsum_from_lookup by lia. simpl. f_equal; lia. }
  rewrite (take_1_drop _ _ _ Hc). simpl.
  unfold nd_getitem. rewrite Hs, (py_index_of_nat n i Hlt). simpl.
  rewrite Nat.mul_1_r, (take_1_drop _ _ _ Hi). simpl.
  rewrite Hi. simpl.
  destruct (nd_slice_flat (values c) m
              (spec_offset (nd_data rl) i + len - 1)
              (spec_offset (nd_data rl) i + len - 1 + len) Hvs Hm)
    as (r & E & D & _).
  exists r. split; [|exact D]. rewrite <- E. reflexivity.
Qed.

(** On a row of length one the code and the specification agree. *)
Lemma getitem_ragged_unit_row (c : Column) (rl : ndarray) (n m i : nat) :
  row_lengths c = PyArray rl ->
  nd_shape rl = [n] ->
  length (nd_data rl) = n ->
  nd_shape (values c) = [m] ->
  length (nd_data (values c)) = m ->
  nd_data rl !! i = Some 1 ->
  exists r,
    Column.__getitem__ c (Z.of_nat i) = Ok r
    /\ nd_data r = spec_row (nd_data (values c)) (nd_data rl) i.
Proof.
  intros Hr Hs Hn Hvs Hm Hi.
  destruct (getitem_ragged_actual c rl n m i 1 Hr Hs Hn Hvs Hm Hi) as (r & E & D).
  exists r. split; [exact E|]. rewrite D. unfold spec_row. rewrite Hi. simpl.
  f_equal; lia.
Qed.

(** C1 (row extraction).  The specification asks that row [i] of a ragged
    column be [values[offset(i) : offset(i) + row_lengths(i)]] with [offset]
    the exclusive prefix sum, so that [Column([1,2,3,4,5,6],
    row_lengths=[2,3,1])] has [row(1) = [3,4,5]].  The code starts the row at
    [cumsum(row_lengths)[i] - 1]: on that column row 1 is [[5, 6]], row 0 is
    [[2, 3]] and row 2 is [[6]]. *)
Theorem getitem_ragged_misaligned :
  exists c,
    Column.__init__ false (PyList [1; 2; 3; 4; 5; 6]) (PyList [2; 3; 1]) = Ok c
    /\ (let? r := Column.__getitem__ c 1 in Ok (nd_data r)) = Ok [5; 6]
    /\ (let? r := Column.__getitem__ c 0 in Ok (nd_data r)) = Ok [2; 3]
    /\ (let? r := Column.__getitem__ c 2 in Ok (nd_data r)) = Ok [6]
    /\ spec_row [1; 2; 3; 4; 5; 6] [2; 3; 1] 1 = [3; 4; 5]
    /\ map (spec_offset [2; 3; 1]) [0; 1; 2]%nat = [0; 2; 5]
    /\ (let? o := Column.offsets c in Ok (nd_data o)) = Ok [1; 4; 5].
Proof. eexists. repeat split; reflexivity. Qed.

(** ** Shape *)

(** For a non-empty rank-one array of row lengths, [shape] is
    [(rows, None)] when all rows have the length of the first and
    [(rows, row_lengths[0])] when some row differs. *)
Lemma shape_of_row_lengths_array (c : Column) (rl : ndarray) (n : nat)
    (x : Z) (rest : list Z) :
  row_lengths c = PyArray rl ->
  nd_shape rl = [n] ->
  nd_data rl = x :: rest ->
  n <> 0%nat ->
  Column.shape c
  = Ok (RowsDim n
          (if forallb (fun y => y =? x) (x :: rest) then None
           else Some (PyNd (NdArray (nd_lib rl) (nd_dtype rl) [] [x])))).
Proof.
  intros Hr Hs Hd Hn.
  assert (H0 : py_index n 0 = Some 0%nat).
  { unfold py_index. destruct (Z.ltb_spec 0 (Z.of_nat n)); [done|lia]. }
  assert (Hg : nd_getitem rl 0 = Ok (NdArray (nd_lib rl) (nd_dtype rl) [] [x])).
  { unfold nd_getitem. rewrite Hs, H0, Hd. reflexivity. }
  unfold Column.shape, Column.is_ragged, Column.__len__, py_getitem, nd_len.
  rewrite Hr, Hg, Hs. cbn [rbind nd_shape nd_data size_of foldr head default].
  change (1 <? 1)%nat with false. cbv iota.
  rewrite existsb_negb_forallb, Hd.
  cbn [rbind]. by destruct (forallb _ _).
Qed.

(** C5 (shape).  The specification reports the common row length when all
    row lengths are equal and [None] when they differ.  The code tests
    [is_ragged] the other way round: the uniform column
    [Column([1,2,3,4], row_lengths=[2,2])] has shape [(2, None)] and the
    ragged column [Column([1,2,3,4,5,6], row_lengths=[2,3,1])] has shape
    [(3, 2)], the length of its first row.  A column without row lengths
    reports the shape of its buffer. *)
Theorem shape_width_inverted :
  (let? c := Column.__init__ false (PyList [1; 2; 3; 4]) (PyList [2; 2]) in
   Column.shape c) = Ok (RowsDim 2 None)
  /\ (let? c := Column.__init__ false (PyList [1; 2; 3; 4; 5; 6]) (PyList [2; 3; 1]) in
      Column.shape c) = Ok (RowsDim 3 (Some (PyNd (NdArray Numpy Int64 [] [2]))))
  /\ (let? c := Column.__init__ false (PyList [1; 2; 3; 4]) PyNone in
      Column.shape c) = Ok (NativeShape [4%nat]).
Proof. repeat split; reflexivity. Qed.

(** ** Construction and invariant I1 *)

Lemma get_column_lookup (h : heap) (r : ref) (c : Column) :
  h !! r = Some (OColumn c) -> get_column r h = (Ok c, h).
Proof. intros H. unfold get_column. by rewrite H. Qed.

Lemma _device_move_run fn (h : heap) (r : ref) (c : Column) :
  h !! r = Some (OColumn c) ->
  Column._device_move fn r h = (Ok tt, <[r := OColumn (moved fn c)]> h).
Proof.
  intros H. unfold Column._device_move, bind. by rewrite (get_column_lookup _ _ _ H).
Qed.

Lemma moved_numeric fn c :
  numeric (values (moved fn c)) = numeric (values c)
  /\ numeric_py (row_lengths (moved fn c)) = numeric_py (row_lengths c)
  /\ dtype (moved fn c) = dtype c
  /\ _device (moved fn c) = _device c.
Proof. split_and!; try reflexivity. simpl. by destruct (row_lengths c). Qed.

Lemma moved_I1 fn c : I1 (moved fn c) = I1 c.
Proof. unfold I1, moved; simpl. by destruct (row_lengths c). Qed.

(** With cupy available the [device] setter either leaves the column alone
    or replaces it by its moved version; without cupy it raises before
    touching anything. *)
Lemma device_setter_cupy_cases (d : device_arg) (h : heap) (r : ref) (c : Column) :
  h !! r = Some (OColumn c) ->
  Column.device_setter true d r h = (Ok tt, h)
  \/ exists fn,
       Column.device_setter true d r h = (Ok tt, <[r := OColumn (moved fn c)]> h).
Proof.
  intros H. unfold Column.device_setter. simpl.
  unfold bind. rewrite (get_column_lookup _ _ _ H).
  destruct (_device c), d as [[]|s]; try (left; reflexivity);
    try (right; eexists; by apply _device_move_run).
  all: destruct (String.eqb s "cpu"); [|destruct (String.eqb s "gpu")];
    try (left; reflexivity);
    right; eexists; by apply _device_move_run.
Qed.

Lemma device_setter_no_cupy (d : device_arg) (h : heap) (r : ref) :
  Column.device_setter false d r h = (Raise (ValueError no_cupy_msg), h).
Proof. reflexivity. Qed.

(** A transfer request never changes the device tag, the dtype, or the
    numbers held by [values] and [row_lengths]. *)
Lemma device_setter_effect cupy (d : device_arg) (h h' : heap) (r : ref)
    (c : Column) (res : result unit) :
  h !! r = Some (OColumn c) ->
  Column.device_setter cupy d r h = (res, h') ->
  exists c',
    h' !! r = Some (OColumn c')
    /\ _device c' = _device c
    /\ dtype c' = dtype c
    /\ numeric (values c') = numeric (values c)
    /\ numeric_py (row_lengths c') = numeric_py (row_lengths c)
    /\ I1 c' = I1 c.
Proof.
  intros H E. destruct cupy.
  - destruct (device_setter_cupy_cases d h r c H) as [E'|[fn E']];
      rewrite E' in E; inversion E; subst.
    + by exists c.
    + exists (moved fn c). split.
      * apply list_lookup_insert_eq. by eapply lookup_lt_Some.
      * destruct (moved_numeric fn c) as (?&?&?&?). by rewrite moved_I1.
  - rewrite device_setter_no_cupy in E. inversion E; subst. by exists c.
Qed.

(** [_make_column] on a two-dimensional array of a supported type: the new
    column holds the flattened buffer and one row length per row. *)
Lemma _make_column_2d cupy (a : ndarray) (n w : nat) (h : heap) :
  nd_shape a = [n; w] ->
  nd_lib a = Numpy \/ (nd_lib a = Cupy /\ cupy = true) ->
  exists c,
    _make_column cupy (InValue (PyArray a)) h = (Ok (length h), h ++ [OColumn c])
    /\ Column.__init__ cupy (PyArray (flatten a)) (PyList (replicate n (Z.of_nat w))) = Ok c
    /\ values c = flatten a
    /\ row_lengths c = PyArray (array_of_list (_array_lib cupy) (replicate n (Z.of_nat w)))
    /\ dtype c = nd_dtype a
    /\ I1 c = true.
Proof.
  intros Hs Hl.
  assert (HI : (sum_list (replicate n (Z.of_nat w)) =? Z.of_nat (n * (w * 1)))%Z = true).
  { rewrite sum_list_replicate. apply Z.eqb_eq. lia. }
  unfold _make_column, Column.new, Column.__init__, bind, lift, alloc, I1.
  rewrite Hs. simpl.
  destruct Hl as [Hl|[Hl ->]]; rewrite Hl; simpl;
    eexists; (split_and!; [reflexivity..|]); simpl; rewrite Hs; exact HI.
Qed.

(** C3, counterexample.  The constructor takes a [(values, row_lengths)]
    pair as it comes: [Column([1,2,3], row_lengths=[5])] is built without
    error although the row lengths sum to 5 and there are 3 values. *)
Lemma init_accepts_inconsistent_pair :
  exists c,
    Column.__init__ false (PyList [1; 2; 3]) (PyList [5]) = Ok c
    /\ pyval_data (row_lengths c) = Some [5]
    /\ nd_len (values c) = Ok 3%nat
    /\ I1 c = false.
Proof. eexists. split_and!; reflexivity. Qed.

Lemma numeric_py_data (x y : pyval) :
  numeric_py x = numeric_py y -> pyval_data x = pyval_data y.
Proof.
  destruct x as [|l|a], y as [|l'|a']; simpl; unfold numeric; intros E;
    try done; by inversion E.
Qed.

(** C3 (invariant I1), as amended.  The code establishes
    [sum(row_lengths) = len(values)] where it derives the row lengths
    itself, and otherwise hands on what it is given:
    - [_make_column] on a two-dimensional array of shape [(n, w)] builds a
      column whose row lengths are [n] times [w] over a flat buffer of
      [n * w] values, so [sum(row_lengths) = len(values) = n * w];
    - the constructor stores a flat buffer and the row lengths it is given
      without a check, so I1 holds afterwards exactly when the arguments
      satisfy it (always, when no row lengths are given);
    - a transfer request, whatever its outcome, leaves the column in the
      store with the same row lengths and the same number of values, hence
      with I1 as it was. *)
Theorem I1_construction_and_transfer :
  (forall cupy (a : ndarray) (n w : nat) (h : heap),
      nd_shape a = [n; w] ->
      nd_lib a = Numpy \/ (nd_lib a = Cupy /\ cupy = true) ->
      exists c,
        _make_column cupy (InValue (PyArray a)) h = (Ok (length h), h ++ [OColumn c])
        /\ pyval_data (row_lengths c) = Some (replicate n (Z.of_nat w))
        /\ sum_list (replicate n (Z.of_nat w)) = Z.of_nat (n * w)
        /\ nd_len (values c) = Ok (n * w)%nat
        /\ I1 c = true)
  /\ (forall cupy (v rl : pyval) (c : Column),
        Column.__init__ cupy v rl = Ok c ->
        length (nd_shape (values c)) <> 2%nat ->
        pyval_data (row_lengths c) = pyval_data rl
        /\ numeric_py (PyArray (values c)) = numeric_py v
        /\ I1 c = pair_consistent v rl)
  /\ (forall cupy (d : device_arg) (h h' : heap) (r : ref) (c : Column) res,
        h !! r = Some (OColumn c) ->
        Column.device_setter cupy d r h = (res, h') ->
        exists c',
          h' !! r = Some (OColumn c')
          /\ pyval_data (row_lengths c') = pyval_data (row_lengths c)
          /\ nd_len (values c') = nd_len (values c)
          /\ I1 c' = I1 c).
Proof.
  split_and!.
  - intros cupy a n w h Hs Hl.
    destruct (_make_column_2d cupy a n w h Hs Hl) as (c & E & _ & Hv & Hr & _ & HI).
    exists c. split_and!; try done.
    + by rewrite Hr.
    + rewrite sum_list_replicate. lia.
    + rewrite Hv. unfold nd_len, flatten. cbn [nd_shape]. rewrite Hs. simpl.
      do 2 f_equal. lia.
  - intros cupy v rl c E Hrank.
    unfold Column.__init__ in E.
    destruct v as [|l|a]; simpl in E; [discriminate| |].
    + destruct cupy; simpl in E; inversion E; subst; clear E;
        unfold I1, pair_consistent; simpl; rewrite pyval_data_make_array;
        split_and!; reflexivity.
    + assert (Hc : values c = a
                   /\ row_lengths c = match nd_shape a with
                                      | [rows; width] => PyList (replicate rows (Z.of_nat width))
                                      | _ => _make_array cupy rl
                                      end).
      { destruct (nd_lib a); [|destruct cupy|]; inversion E; by subst. }
      destruct Hc as [Hv Hr]. unfold I1, pair_consistent. rewrite Hv, Hr.
      rewrite Hv in Hrank.
      destruct (nd_shape a) as [|x [|y [|z s]]] eqn:Hs; simpl in Hrank;
        try done; rewrite pyval_data_make_array; unfold nd_len; rewrite Hs;
        split_and!; reflexivity.
  - intros cupy d h h' r c res H E.
    destruct (device_setter_effect _ _ _ _ _ _ _ H E) as (c' & H' & _ & _ & HV & HR & HI).
    exists c'. split_and!; try done.
    + by apply numeric_py_data.
    + unfold nd_len. unfold numeric in HV. by inversion HV.
Qed.

Lemma I1_construction_and_transfer_witness :
  (exists c,
     _make_column true
       (InValue (PyArray (NdArray Cupy Int64 [2; 3]%nat [1; 2; 3; 4; 5; 6]))) []
       = (Ok 0%nat, [OColumn c])
     /\ pyval_data (row_lengths c) = Some [3; 3]
     /\ nd_len (values c) = Ok 6%nat)
  /\ I1 (mkColumn (array_of_list Numpy [1; 2; 3])
           (PyArray (array_of_list Numpy [2; 1])) Int64 CPU)
     = pair_consistent (PyList [1; 2; 3]) (PyList [2; 1])
  /\ (exists c',
        [OColumn (moved cupy_asarray ragged_example)] !! 0%nat = Some (OColumn c')
        /\ pyval_data (row_lengths c') = Some [2; 3; 1]
        /\ nd_len (values c') = Ok 6%nat
        /\ I1 c' = true).
Proof.
  destruct I1_construction_and_transfer as (Hmk & Hinit & Hmove).
  split_and!.
  - destruct (Hmk true (NdArray Cupy Int64 [2; 3]%nat [1; 2; 3; 4; 5; 6]) 2%nat 3%nat [])
      as (c & E & Hr & _ & Hv & _); [reflexivity | right; split; reflexivity |].
    exists c. split_and!; [exact E|exact Hr|exact Hv].
  - apply (Hinit false); [reflexivity | simpl; lia].
  - apply (Hmove true (ArgDevice GPU) [OColumn ragged_example]
             [OColumn (moved cupy_asarray ragged_example)]
             0%nat ragged_example (Ok tt));
      reflexivity.
Defined.

(** C4 (two-dimensional input).  The specification asks that a column built
    from an array of shape [(3, 4)] equal the column built from the
    flattened array with row lengths [[4, 4, 4]].  [_make_column] does
    exactly that, but the constructor itself only sets the row lengths:
    [Column(a)] keeps the buffer two-dimensional (so [len(values)] is 3, not
    12, and I1 fails) and holds the row lengths as a Python list, on which
    row extraction raises; the column built from the flattened buffer has
    neither defect. *)
Theorem init_2d_keeps_buffer_2d :
  exists c1 c2 r h,
    Column.__init__ false (PyArray array_3x4) PyNone = Ok c1
    /\ Column.__init__ false (PyArray (flatten array_3x4)) (PyList [4; 4; 4]) = Ok c2
    /\ _make_column false (InValue (PyArray array_3x4)) [] = (Ok r, h)
    /\ h !! r = Some (OColumn c2)
    /\ c1 <> c2
    /\ nd_shape (values c1) = [3; 4]%nat
    /\ nd_shape (values c2) = [12]%nat
    /\ row_lengths c1 = PyList [4; 4; 4]
    /\ row_lengths c2 = PyArray (array_of_list Numpy [4; 4; 4])
    /\ I1 c1 = false
    /\ I1 c2 = true
    /\ Column.__getitem__ c1 0
       = Raise (AttributeError "'int' object has no attribute 'item'")
    /\ is_ok (Column.__getitem__ c2 0) = true.
Proof.
  do 4 eexists. split_and!; try reflexivity. discriminate.
Qed.

(** ** Device transfer *)

(** A move into the library both buffers already live in hands back the
    same column. *)
Lemma moved_in_place fn (c : Column) :
  buffers_in (fn_target fn) c -> moved fn c = c.
Proof.
  destruct c as [[lb dt sh data] rl dt' dv]. unfold buffers_in, moved, apply_fn. simpl.
  intros [-> [->|(a & -> & <-)]]; [done|]. by destruct a.
Qed.

(** C7, counterexample.  Without cupy, moving a host column to the host
    memory it occupies is not a no-op: the setter raises. *)
Lemma same_domain_transfer_raises_without_cupy :
  ~ same_domain_noop false [OColumn host_column] 0%nat.
Proof.
  intros H.
  destruct (H host_column CPU eq_refl (conj eq_refl (or_introl eq_refl))) as [H1 _].
  discriminate H1.
Qed.

(** C7 (transfers that change nothing), as amended.  When cupy is
    available: a transfer to the memory domain the column already occupies
    leaves the store untouched, raises nothing and returns the same column,
    whatever the device tag says; and [gpu()] followed by [cpu()] returns
    the same column with the shape and elements of [values] and
    [row_lengths] and the dtype as they were before. *)
Theorem transfer_noop_and_round_trip (h : heap) (r : ref) (c : Column) :
  h !! r = Some (OColumn c) ->
  same_domain_noop true h r
  /\ exists h1 h2 c2,
       Column.gpu true r h = (Ok r, h1)
       /\ Column.cpu true r h1 = (Ok r, h2)
       /\ h2 !! r = Some (OColumn c2)
       /\ numeric (values c2) = numeric (values c)
       /\ numeric_py (row_lengths c2) = numeric_py (row_lengths c)
       /\ dtype c2 = dtype c.
Proof.
  intros H.
  assert (Hsame : forall c0 d, h !! r = Some (OColumn c0) ->
            buffers_in (domain_lib d) c0 ->
            Column.device_setter true (ArgDevice d) r h = (Ok tt, h)).
  { intros c0 d H0 Hb. unfold Column.device_setter, bind. simpl.
    rewrite (get_column_lookup _ _ _ H0).
    destruct (_device c0), d; simpl; try reflexivity.
    - rewrite (_device_move_run cupy_asarray h r c0 H0).
      rewrite (moved_in_place cupy_asarray c0 Hb). f_equal. by apply list_insert_id.
    - rewrite (_device_move_run cupy_asnumpy h r c0 H0).
      rewrite (moved_in_place cupy_asnumpy c0 Hb). f_equal. by apply list_insert_id. }
  split.
  - intros c0 d H0 Hb. specialize (Hsame c0 d H0 Hb). split; [exact Hsame|].
    destruct d; unfold Column.cpu, Column.gpu, bind; by rewrite Hsame.
  - destruct (Column.device_setter true (ArgDevice GPU) r h) as [res1 h1] eqn:E1.
    destruct (device_setter_effect _ _ _ _ _ _ _ H E1) as (c1 & H1 & T1 & D1 & V1 & R1 & _).
    destruct (Column.device_setter true (ArgDevice CPU) r h1) as [res2 h2] eqn:E2.
    destruct (device_setter_effect _ _ _ _ _ _ _ H1 E2) as (c2 & H2 & T2 & D2 & V2 & R2 & _).
    assert (res1 = Ok tt) as ->.
    { destruct (device_setter_cupy_cases (ArgDevice GPU) h r c H) as [E|[fn E]];
        rewrite E in E1; by inversion E1. }
    assert (res2 = Ok tt) as ->.
    { destruct (device_setter_cupy_cases (ArgDevice CPU) h1 r c1 H1) as [E|[fn E]];
        rewrite E in E2; by inversion E2. }
    exists h1, h2, c2. unfold Column.cpu, Column.gpu, bind. rewrite E1, E2.
    split_and!; try done; congruence.
Qed.

(** The column [ragged_example] after [gpu()]: both buffers are in
    accelerator memory and the tag still reads [CPU]; a second [gpu()] and a
    [cpu()] on the host column [host_column] change nothing. *)
Lemma transfer_noop_and_round_trip_witness :
  [OColumn (moved cupy_asarray ragged_example)] !! 0%nat
  = Some (OColumn (moved cupy_asarray ragged_example))
  /\ Column.gpu true 0%nat [OColumn (moved cupy_asarray ragged_example)]
     = (Ok 0%nat, [OColumn (moved cupy_asarray ragged_example)])
  /\ Column.cpu true 0%nat [OColumn host_column] = (Ok 0%nat, [OColumn host_column]).
Proof.
  split; [reflexivity|].
  destruct (transfer_noop_and_round_trip [OColumn (moved cupy_asarray ragged_example)]
              0%nat (moved cupy_asarray ragged_example) eq_refl) as (Hnoop & _).
  destruct (transfer_noop_and_round_trip [OColumn host_column] 0%nat host_column eq_refl)
    as (Hnoop' & _).
  split.
  - apply (Hnoop (moved cupy_asarray ragged_example) GPU eq_refl).
    split; [reflexivity|right]. by eexists.
  - apply (Hnoop' host_column CPU eq_refl). split; [reflexivity|by left].
Defined.

(** C8 (no accelerator runtime).  Without cupy every transfer request,
    [cpu()], [gpu()] or an assignment to [device], raises the error the
    specification calls AcceleratorUnavailableError (a [ValueError] in the
    code) and leaves the store as it was; none returns normally. *)
Theorem transfer_without_cupy_raises (self : ref) (d : device_arg) (h : heap) :
  Column.cpu false self h = (Raise AcceleratorUnavailableError, h)
  /\ Column.gpu false self h = (Raise AcceleratorUnavailableError, h)
  /\ Column.device_setter false d self h = (Raise AcceleratorUnavailableError, h).
Proof. repeat split; reflexivity. Qed.

(** C9 (device tag after a transfer).  The specification says that after
    [to_accelerator()] on a host column the tag is Accelerator and after
    [to_host()] on an accelerator column it is Host.  [gpu()] and [cpu()] do
    return the same object and do move the buffer, but nothing assigns
    [_device]: with cupy available, a host column [[1,2,3]] after [gpu()]
    has its buffer in accelerator memory and still reports [CPU]; a
    following [cpu()] therefore finds nothing to do and leaves the buffer
    in accelerator memory; an accelerator column after [cpu()] still
    reports [GPU]. *)
Theorem gpu_cpu_keep_device_tag :
  ((r <- Column.new true (PyArray (array_of_list Numpy [1; 2; 3])) PyNone;;
    r' <- Column.gpu true r;;
    c <- get_column r';;
    ret (r, r', nd_lib (values c), Column.device c)) []).1
    = Ok (0%nat, 0%nat, Cupy, CPU)
  /\ ((r <- Column.new true (PyArray (array_of_list Numpy [1; 2; 3])) PyNone;;
       _ <- Column.gpu true r;;
       _ <- Column.cpu true r;;
       c <- get_column r;;
       ret (nd_lib (values c), Column.device c)) []).1
       = Ok (Cupy, CPU)
  /\ ((r <- Column.new true (PyArray (array_of_list Cupy [1; 2; 3])) PyNone;;
       r' <- Column.cpu true r;;
       c <- get_column r';;
       ret (r, r', nd_lib (values c), Column.device c)) []).1
       = Ok (0%nat, 0%nat, Numpy, GPU).
Proof. repeat split; reflexivity. Qed.

(** ** Conversion to and from dataframes *)

(** [get_series_offsets] on a cudf list column with a boundary array of rank
    one: the successive differences, wrapped to the dtype of the array. *)
Lemma get_series_offsets_cudf (elements offs : ndarray) (n : nat) :
  nd_shape offs = [n] ->
  length (nd_data offs) = n ->
  get_series_offsets (CudfListSeries elements offs)
  = Ok (NdArray (nd_lib offs) (nd_dtype offs) [(n - 1)%nat]
          (map (wrap_dtype (nd_dtype offs)) (adjacent_diffs (nd_data offs)))).
Proof.
  intros Hs Hn. unfold get_series_offsets, nd_slice, nd_sub, adjacent_diffs. simpl.
  rewrite Hs. simpl. destruct n as [|n].
  - destruct (nd_data offs); [reflexivity|discriminate].
  - assert (E1 : slice_bound (S n) 1 = 1%nat) by (rewrite slice_bound_nonneg; lia).
    assert (E2 : slice_bound (S n) (-1) = n) by (rewrite slice_bound_neg; lia).
    rewrite E1, E2. simpl.
    replace (n - 0)%nat with n by lia.
    rewrite bool_decide_eq_true_2 by reflexivity. simpl.
    do 3 f_equal.
    rewrite Nat.mul_1_r, drop_0.
    rewrite (take_ge (drop 1 (nd_data offs))) by (rewrite length_drop; lia).
    rewrite <- (zip_with_take_r_length _ _ (nd_data offs)).
    rewrite length_drop, Hn. do 2 f_equal. lia.
Qed.

Lemma nondecreasing_cons2 (x y : Z) (t : list Z) :
  nondecreasing (x :: y :: t) = (x <=? y) && nondecreasing (y :: t).
Proof. reflexivity. Qed.

Lemma nondecreasing_false (b : list Z) :
  nondecreasing b = false <-> exists i x y, b !! i = Some x /\ b !! S i = Some y /\ y < x.
Proof.
  induction b as [|x [|y t] IH].
  - split; [done|]. by intros (i & ? & ? & ? & _).
  - split; [done|]. intros (i & a & b & Ha & Hb & _). done.
  - rewrite nondecreasing_cons2, andb_false_iff, IH. split.
    + intros [Hxy|(i & a & b & Ha & Hb & Hlt)].
      * exists 0%nat, x, y. apply Z.leb_gt in Hxy. done.
      * by exists (S i), a, b.
    + intros ([|i] & a & b & Ha & Hb & Hlt).
      * left. simpl in Ha, Hb. inversion Ha; inversion Hb; subst. by apply Z.leb_gt.
      * right. by exists i, a, b.
Qed.

Lemma from_df_items_app (pre post : DataFrame) (acc acc' : list (string * column_input)) :
  DictArray.from_df_items pre acc = Ok acc' ->
  DictArray.from_df_items (pre ++ post) acc = DictArray.from_df_items post acc'.
Proof.
  revert acc. induction pre as [|[k s] pre IH]; intros acc E; simpl in *.
  - by inversion E.
  - destruct (DictArray.from_df_column s) as [v|e]; [|done]. simpl in *. by apply IH.
Qed.

(** C6 (malformed boundaries).  With the extraction of the flat buffer
    modelled from section 4.2 of the specification, [from_df] fails with
    MalformedOffsetsError, without building any column, on every frame whose
    first column that cannot be converted is an Encoding-B column with a
    boundary array that decreases somewhere or whose final entry is not the
    length of the value buffer; [[0, 3, 2]] is such an array. *)
Theorem from_df_rejects_malformed_offsets cupy (pre post : DataFrame)
    (acc : list (string * column_input)) (name : string)
    (elements offs : ndarray) (m : nat) (h : heap) :
  DictArray.from_df_items pre [] = Ok acc ->
  nd_len elements = Ok m ->
  malformed (nd_data offs) m ->
  DictArray.from_df cupy (pre ++ (name, CudfListSeries elements offs) :: post) h
  = (Raise MalformedOffsetsError, h).
Proof.
  intros Hpre Hm Hbad.
  assert (Hf : flatten_list_column_values (CudfListSeries elements offs)
               = Raise MalformedOffsetsError).
  { unfold flatten_list_column_values. rewrite Hm. simpl.
    destruct Hbad as [Hdec|Hlast].
    - apply nondecreasing_false in Hdec. by rewrite Hdec.
    - rewrite (bool_decide_eq_false_2 _ Hlast). by rewrite andb_false_r. }
  unfold DictArray.from_df, bind, lift.
  rewrite (from_df_items_app pre _ [] acc Hpre).
  cbn [DictArray.from_df_items]. unfold DictArray.from_df_column, is_list_dtype.
  by rewrite Hf.
Qed.

Lemma from_df_rejects_malformed_offsets_witness :
  DictArray.from_df true
    [("a"%string, PdSeries (array_of_list Numpy [7; 8]));
     ("b"%string, CudfListSeries (array_of_list Cupy [1; 2; 3])
                    (NdArray Cupy Int32 [3%nat] [0; 3; 2]))] []
  = (Raise MalformedOffsetsError, []).
Proof.
  apply (from_df_rejects_malformed_offsets true
           [("a"%string, PdSeries (array_of_list Numpy [7; 8]))] []
           [("a"%string, InValue (PyArray (array_of_list Numpy [7; 8])))]
           "b" (array_of_list Cupy [1; 2; 3]) (NdArray Cupy Int32 [3%nat] [0; 3; 2])
           3 []); [reflexivity|reflexivity|].
  left. exists 1%nat, 3, 2. split_and!; [reflexivity|reflexivity|lia].
Defined.

(** A ragged column with flat buffers that satisfies I1, sent through the
    cudf encoding and read back with [get_series_offsets]: the row lengths
    come back shifted by one row and end in 1.  They are reproduced only
    when every row has length one. *)
Lemma cudf_row_lengths_come_back_shifted cupy (c : Column) (rl : ndarray)
    (m : nat) (x : Z) (rest : list Z) :
  row_lengths c = PyArray rl ->
  nd_data rl = x :: rest ->
  nd_shape (values c) = [m] ->
  Forall (fun z => 0 <= z) (x :: rest) ->
  sum_list (x :: rest) = Z.of_nat m ->
  Z.of_nat m < 2 ^ 31 ->
  exists lens,
    (let? s := DictArray.to_df_column cupy Cudf c in get_series_offsets s) = Ok lens
    /\ nd_data lens = rest ++ [1].
Proof.
  intros Hr Hd Hvs Hpos Hsum Hm.
  unfold DictArray.to_df_column, Column.is_list, Column.offsets, Series_buffer.
  rewrite Hr, Hvs. simpl. unfold nd_len. rewrite Hvs. simpl.
  unfold build_cudf_list_column.
  erewrite get_series_offsets_cudf.
  2: reflexivity.
  2: { simpl. rewrite length_map, length_app. simpl. lia. }
  eexists. split; [reflexivity|]. cbn [nd_data nd_dtype wrap_dtype].
  rewrite Hd.
  assert (Hin : Forall (fun z => - 2 ^ 31 <= z < 2 ^ 31)
                  (map (fun z => z - 1) (cumsum (x :: rest)) ++ [Z.of_nat m])).
  { apply Forall_app. split.
    + apply Forall_fmap. eapply Forall_impl; [apply (cumsum_from_bounds _ 0 Hpos)|].
      intros z Hz. cbv beta in Hz. rewrite Hsum in Hz. unfold compose. lia.
    + constructor; [lia|constructor]. }
  rewrite (map_to_int32_id _ Hin).
  unfold cumsum. rewrite <- Hsum.
  pose proof (adjacent_diffs_of_offsets x rest 0) as Ha.
  change (0 + sum_list (x :: rest)) with (sum_list (x :: rest)) in Ha.
  rewrite Ha.
  apply map_to_int32_id. apply Forall_app. split; [|constructor; [lia|constructor]].
  pose proof (sum_list_bounds (x :: rest) Hpos) as Hb.
  apply Forall_cons in Hb as [_ Hb].
  eapply Forall_impl; [exact Hb|]. intros z Hz. cbv beta in Hz. rewrite Hsum in Hz. lia.
Qed.

(** The rows [build_pandas_list_column] cuts out of a buffer that is long
    enough: their concatenation is the stretch of the buffer they cover, and
    their lengths are the row lengths. *)
Lemma build_pandas_rows_spec (elements : ndarray) (lens : list Z) (off : Z) :
  Forall (fun z => 0 <= z) lens ->
  0 <= off ->
  off + sum_list lens <= Z.of_nat (length (nd_data elements)) ->
  concat (map nd_data (build_pandas_rows elements off lens))
  = take (Z.to_nat (sum_list lens)) (drop (Z.to_nat off) (nd_data elements))
  /\ result_map nd_len (build_pandas_rows elements off lens)
     = Ok (map Z.to_nat lens)
  /\ Forall (fun r => nd_dtype r = nd_dtype elements)
       (build_pandas_rows elements off lens).
Proof.
  intros H. revert off. induction H as [|x l Hx Hl IH]; intros off Ho Hb.
  - simpl. by rewrite take_0.
  - pose proof (sum_list_nonneg l Hl) as Hs.
    assert (Hsum : sum_list (x :: l) = x + sum_list l) by reflexivity.
    rewrite Hsum in Hb.
    destruct (IH (off + x)) as (IHc & IHl & IHd); [lia..|].
    cbn [build_pandas_rows map concat result_map nd_data].
    rewrite IHc, IHl, (py_slice_inside _ off x) by lia.
    split_and!.
    + rewrite Hsum, !Z2Nat.inj_add by lia.
      rewrite <- drop_drop. apply take_take_drop.
    + cbn [nd_len nd_shape rbind map]. do 2 f_equal.
      rewrite length_take, length_drop. lia.
    + by constructor.
Qed.

(** A ragged column with flat host buffers that satisfies I1, sent through
    the pandas encoding and read back: [from_df] is handed the same values,
    dtype and row lengths. *)
Lemma pandas_column_round_trip cupy (c : Column) (rl : ndarray) (n m : nat) :
  row_lengths c = PyArray rl ->
  nd_lib rl = Numpy ->
  nd_shape rl = [n] ->
  nd_data rl <> [] ->
  nd_lib (values c) = Numpy ->
  nd_shape (values c) = [m] ->
  length (nd_data (values c)) = m ->
  Forall (fun z => 0 <= z) (nd_data rl) ->
  sum_list (nd_data rl) = Z.of_nat m ->
  exists v' rl',
    (let? s := DictArray.to_df_column cupy Pandas c in DictArray.from_df_column s)
    = Ok (InTuple (PyArray v') (PyArray rl'))
    /\ nd_data v' = nd_data (values c)
    /\ nd_shape v' = nd_shape (values c)
    /\ nd_dtype v' = nd_dtype (values c)
    /\ nd_data rl' = nd_data rl.
Proof.
  intros Hr Hlr Hsr Hne Hlv Hsv Hm Hpos Hsum.
  destruct (build_pandas_rows_spec (values c) (nd_data rl) 0 Hpos) as (Hc & Hl & Hd);
    [lia..|].
  unfold DictArray.to_df_column, Column.is_list, Series_buffer.
  rewrite Hr, Hsv, Hsr, Hlv, Hlr. simpl.
  unfold build_pandas_list_column, DictArray.from_df_column, is_list_dtype,
    get_series_offsets, is_list_dtype, flatten_list_column_values.
  destruct (nd_data rl) as [|x rest] eqn:Hdata; [done|].
  destruct (build_pandas_rows (values c) 0 (x :: rest)) as [|row rows] eqn:Hrows;
    [discriminate Hl|].
  rewrite bool_decide_eq_false_2 by discriminate.
  cbn [negb]. rewrite Hl. cbn [rbind].
  do 2 eexists. split; [reflexivity|].
  rewrite Hsum, Nat2Z.id, drop_0 in Hc.
  rewrite take_ge in Hc by lia.
  split_and!.
  - cbn [nd_data]. exact Hc.
  - cbn [nd_shape]. by rewrite Hc, Hm.
  - cbn [nd_dtype head from_option]. by inversion Hd.
  - cbn [array_of_list nd_data]. rewrite <- list_fmap_compose.
    clear -Hpos. induction Hpos as [|z l Hz _ IH]; [done|].
    cbn [fmap list_fmap compose]. rewrite Z2Nat.id by lia. f_equal. exact IH.
Qed.

(** C2 (round trip).  The specification asks that [from_df(to_df(T))]
    reproduce values, dtypes and row lengths for both encodings.  For the
    table holding [Column([1,2,3,4,5,6], row_lengths=[2,3,1])], the cudf
    encoding is given the boundaries [[1, 4, 5, 6]] (the [offsets] property
    followed by the buffer length) and the row lengths come back as
    [[3, 1, 1]]; the pandas encoding of the same table gives back
    [[2, 3, 1]]. *)
Theorem round_trip_cudf_changes_row_lengths :
  ((T <- DictArray.__init__ true
           [("a"%string, InTuple (PyList [1; 2; 3; 4; 5; 6]) (PyList [2; 3; 1]))];;
    T' <- round_trip true Cudf T;;
    c <- column_of T "a";;
    c' <- column_of T' "a";;
    ret (pyval_data (row_lengths c), pyval_data (row_lengths c'),
         nd_data (values c'), dtype c')) []).1
  = Ok (Some [2; 3; 1], Some [3; 1; 1], [1; 2; 3; 4; 5; 6], Int64)
  /\ ((T <- DictArray.__init__ true
              [("a"%string, InTuple (PyList [1; 2; 3; 4; 5; 6]) (PyList [2; 3; 1]))];;
       df <- DictArray.to_df true Cudf T;;
       ret df) []).1
     = Ok [("a"%string,
            CudfListSeries (array_of_list Cupy [1; 2; 3; 4; 5; 6])
              (NdArray Cupy Int32 [4%nat] [1; 4; 5; 6]))]
  /\ ((T <- DictArray.__init__ false
              [("a"%string, InTuple (PyList [1; 2; 3; 4; 5; 6]) (PyList [2; 3; 1]))];;
       T' <- round_trip false Pandas T;;
       c' <- column_of T' "a";;
       ret (pyval_data (row_lengths c'), nd_data (values c'), dtype c')) []).1
     = Ok (Some [2; 3; 1], [1; 2; 3; 4; 5; 6], Int64).
Proof. split_and!; vm_compute; reflexivity. Qed.

(** ** Table equality *)

(** C10 (table equality).  [DictArray.__eq__] compares two freshly made
    dictionary views, which are distinct objects compared by identity, so it
    answers [False] for every pair of tables in every store, a table
    compared with itself included; the dtypes are never looked at. *)
Theorem DictArray_eq_always_false (a b : DictArray) (h : heap) :
  (DictArray.__eq__ a b h).1 = Ok false.
Proof.
  unfold DictArray.__eq__, DictArray.values, bind, alloc, ret, object_eq. simpl.
  rewrite length_app. simpl.
  replace (length h =? length h + 1)%nat with false; [done|].
  symmetry. apply Nat.eqb_neq. lia.
Qed.

(** ** Dictionaries of columns *)

Lemma dict_get_set_eq {V} (d : list (string * V)) (k : string) (v : V) :
  dict_get (dict_set d k v) k = Some v.
Proof.
  induction d as [|[k0 w] d IH]; simpl.
  - by rewrite String.eqb_refl.
  - destruct (String.eqb k0 k) eqn:E; simpl; by rewrite E.
Qed.

Lemma dict_get_set_ne {V} (d : list (string * V)) (k k' : string) (v : V) :
  k <> k' -> dict_get (dict_set d k v) k' = dict_get d k'.
Proof.
  intros Hne. induction d as [|[k0 w] d IH]; simpl.
  - destruct (String.eqb_spec k k'); [done|reflexivity].
  - destruct (String.eqb_spec k0 k) as [->|Hk]; simpl.
    + destruct (String.eqb_spec k k'); [done|reflexivity].
    + by rewrite IH.
Qed.

Lemma dict_get_None {V} (d : list (string * V)) (k : string) :
  dict_get d k = None <-> k ∉ map fst d.
Proof.
  induction d as [|[k0 w] d IH]; simpl.
  - split; [intros _; apply not_elem_of_nil|done].
  - rewrite not_elem_of_cons. destruct (String.eqb_spec k0 k) as [->|Hk].
    + split; [done|]. intros [? _]. done.
    + rewrite IH. split; [intros ?; split; [congruence|done]|by intros [_ ?]].
Qed.

Lemma dict_set_fresh {V} (d : list (string * V)) (k : string) (v : V) :
  k ∉ map fst d -> dict_set d k v = d ++ [(k, v)].
Proof.
  induction d as [|[k0 w] d IH]; simpl; [done|].
  rewrite not_elem_of_cons. intros [Hne Hd].
  destruct (String.eqb_spec k0 k); [congruence|]. by rewrite IH.
Qed.

Lemma dict_set_keys {V} (d : list (string * V)) (k : string) (v : V) :
  map fst (dict_set d k v)
  = match dict_get d k with
    | Some _ => map fst d
    | None => map fst d ++ [k]
    end.
Proof.
  induction d as [|[k0 w] d IH]; simpl; [done|].
  destruct (String.eqb_spec k0 k) as [->|Hk]; simpl; [done|].
  rewrite IH. by destruct (dict_get d k).
Qed.

Lemma dict_set_NoDup {V} (d : list (string * V)) (k : string) (v : V) :
  NoDup (map fst d) -> NoDup (map fst (dict_set d k v)).
Proof.
  intros H. rewrite dict_set_keys. destruct (dict_get d k) eqn:E; [done|].
  apply NoDup_app. split_and!; [done| |apply NoDup_singleton].
  intros x Hx Hk. apply list_elem_of_singleton in Hk as ->.
  by apply dict_get_None in E.
Qed.

Lemma dict_del_None {V} (d : list (string * V)) (k : string) :
  dict_del d k = None <-> dict_get d k = None.
Proof.
  induction d as [|[k0 w] d IH]; simpl; [done|].
  destruct (String.eqb k0 k); [done|].
  destruct (dict_del d k); [|tauto].
  split; [done|]. intros H. by apply IH in H.
Qed.

Lemma dict_del_Some {V} (d d' : list (string * V)) (k : string) :
  NoDup (map fst d) ->
  dict_del d k = Some d' ->
  dict_get d' k = None
  /\ (forall k', k' <> k -> dict_get d' k' = dict_get d k')
  /\ S (length d') = length d
  /\ NoDup (map fst d').
Proof.
  revert d'. induction d as [|[k0 w] d IH]; intros d' Hnd H; simpl in *; [done|].
  apply NoDup_cons in Hnd as [Hk0 Hnd].
  destruct (String.eqb_spec k0 k) as [->|Hk].
  - inversion H; subst. split_and!; try done.
    + by apply dict_get_None.
    + intros k' Hne. destruct (String.eqb_spec k k'); [congruence|done].
  - destruct (dict_del d k) as [d''|] eqn:E; [|done]. inversion H; subst.
    destruct (IH d'' Hnd eq_refl) as (Hg & Ho & Hl & Hn'). simpl.
    destruct (String.eqb_spec k0 k); [done|]. split_and!; try done.
    + intros k' Hne. destruct (String.eqb k0 k'); [done|by apply Ho].
    + by rewrite Hl.
    + apply NoDup_cons. split; [|done].
      apply dict_get_None. rewrite Ho by done. by apply dict_get_None.
Qed.

(** ** Tables: construction, lookup, insertion, deletion, copies *)

(** [_make_column] either hands back the column it was given, leaving the
    store alone, or appends exactly one new column; when it raises, the
    store is as before. *)
Lemma _make_column_effect cupy (v : column_input) (h h' : heap) (res : result ref) :
  _make_column cupy v h = (res, h') ->
  match res with
  | Ok r =>
      (v = InColumn r /\ h' = h)
      \/ (exists c, r = length h /\ h' = h ++ [OColumn c] /\ forall c0, v <> InColumn c0)
  | Raise _ => h' = h
  end.
Proof.
  assert (Hnew : forall vi rl,
    Column.new cupy vi rl h = (res, h') ->
    match res with
    | Ok r => exists c, r = length h /\ h' = h ++ [OColumn c]
    | Raise _ => h' = h
    end).
  { intros vi rl. unfold Column.new, bind, lift, alloc.
    destruct (Column.__init__ cupy vi rl) as [c|e]; intros E; inversion E; subst;
      [by exists c|done]. }
  unfold _make_column. destruct v as [c|vi rl|[|l|a]].
  - intros E. inversion E; subst. by left.
  - intros E. apply Hnew in E. destruct res; [|done].
    destruct E as (c & -> & ->). right. by exists c.
  - intros E. by inversion E.
  - intros E. by inversion E.
  - destruct (nd_shape a) as [|x [|y [|z s]]]; intros E;
      try (by inversion E);
      apply Hnew in E; (destruct res; [|done]);
      destruct E as (c & -> & ->); right; by exists c.
Qed.

Lemma dict_update_fresh {V} (acc d : list (string * V)) :
  NoDup (map fst acc ++ map fst d) -> dict_update acc d = acc ++ d.
Proof.
  revert acc. induction d as [|[k v] d IH]; intros acc Hnd; simpl.
  - by rewrite app_nil_r.
  - unfold dict_update in *. simpl.
    assert (Hk : k ∉ map fst acc).
    { apply NoDup_app in Hnd as (_ & Hd & _). intros Hin. apply (Hd k Hin). left. }
    rewrite (dict_set_fresh acc k v Hk), IH.
    + by rewrite <- app_assoc.
    + rewrite map_app. simpl. by rewrite <- app_assoc.
Qed.

(** Building a table from columns that already exist stores those very
    columns and creates nothing. *)
Lemma make_columns_as_inputs cupy (d acc : list (string * ref)) (h : heap) :
  DictArray.make_columns cupy (as_inputs d) acc h = (Ok (dict_update acc d), h).
Proof.
  revert acc. induction d as [|[k r] d IH]; intros acc; [reflexivity|].
  simpl. unfold bind. simpl. apply IH.
Qed.

Lemma init_as_inputs cupy (d : list (string * ref)) (h : heap) :
  NoDup (map fst d) ->
  DictArray.__init__ cupy (as_inputs d) h = (Ok (mkDictArray d), h).
Proof.
  intros Hnd. unfold DictArray.__init__, bind.
  rewrite make_columns_as_inputs. by rewrite (dict_update_fresh [] d Hnd).
Qed.

(** The dictionary comprehension of [__init__] keeps the names in order and
    only ever appends to the store. *)
Lemma make_columns_keys cupy (vs : list (string * column_input))
    (acc cols : list (string * ref)) (h h' : heap) :
  NoDup (map fst acc ++ map fst vs) ->
  DictArray.make_columns cupy vs acc h = (Ok cols, h') ->
  map fst cols = map fst acc ++ map fst vs
  /\ exists new, h' = h ++ new /\ (length new <= length vs)%nat.
Proof.
  revert acc h. induction vs as [|[k v] vs IH]; intros acc h Hnd E; simpl in *.
  - inversion E; subst. rewrite app_nil_r. split; [done|].
    exists []. by rewrite app_nil_r.
  - unfold bind in E. destruct (_make_column cupy v h) as [[r|e] h1] eqn:Em; [|done].
    assert (Hk : k ∉ map fst acc).
    { apply NoDup_app in Hnd as (_ & Hd & _). intros Hin. apply (Hd k Hin). left. }
    apply IH in E.
    + destruct E as (Hkeys & new & -> & Hlen).
      rewrite Hkeys, (dict_set_fresh acc k r Hk), map_app. simpl.
      split; [by rewrite <- app_assoc|].
      pose proof (_make_column_effect cupy v h h1 (Ok r) Em) as [[_ ->]|(c & _ & -> & _)].
      * exists new. split; [done|lia].
      * exists (OColumn c :: new). rewrite <- app_assoc. split; [done|simpl; lia].
    + rewrite (dict_set_fresh acc k r Hk), map_app. simpl. by rewrite <- app_assoc.
Qed.

(** X1 (construction).  When [DictArray(values)] succeeds, the table has the
    names of [values] in the same order, [len] counts the columns (not the
    rows), and the store has only been extended: no existing object was
    touched and at most one column per entry was created. *)
Theorem DictArray_init_names_and_len cupy (values_in : list (string * column_input))
    (T : DictArray) (h h' : heap) :
  NoDup (map fst values_in) ->
  DictArray.__init__ cupy values_in h = (Ok T, h') ->
  DictArray.columns T = map fst values_in
  /\ DictArrayOps.keys T = map fst values_in
  /\ DictArrayOps.__len__ T = length values_in
  /\ exists new, h' = h ++ new /\ (length new <= length values_in)%nat.
Proof.
  intros Hnd E. unfold DictArray.__init__, bind in E.
  destruct (DictArray.make_columns cupy values_in [] h) as [[cols|e] h1] eqn:Em; [|done].
  inversion E; subst.
  destruct (make_columns_keys cupy values_in [] cols h h' Hnd Em) as (Hk & Hnew).
  unfold DictArray.columns, DictArrayOps.keys, DictArrayOps.__len__. simpl in *.
  split_and!; try done.
  by rewrite <- (length_map fst cols), Hk, length_map.
Qed.

Lemma DictArray_init_names_and_len_witness :
  exists T h',
    DictArray.__init__ false
      [("a"%string, InValue (PyArray (array_of_list Numpy [1; 2; 3])));
       ("b"%string, InTuple (PyList [1; 2; 3]) (PyList [2; 1]))] [] = (Ok T, h')
    /\ DictArrayOps.keys T = ["a"%string; "b"%string]
    /\ DictArrayOps.__len__ T = 2%nat.
Proof.
  do 2 eexists. split; [reflexivity|].
  edestruct (DictArray_init_names_and_len false
    [("a"%string, InValue (PyArray (array_of_list Numpy [1; 2; 3])));
     ("b"%string, InTuple (PyList [1; 2; 3]) (PyList [2; 1]))]) as (_ & Hk & Hl & _);
    [|reflexivity|split; [exact Hk|exact Hl]].
  apply (bool_decide_unpack _). vm_compute. exact I.
Defined.

Lemma DictArray_getitem_get (T : DictArray) (key : string) (h : heap) :
  DictArray.__getitem__ T key h
  = (match dict_get (_columns T) key with
     | Some c => Ok c
     | None => Raise (KeyError key)
     end, h).
Proof. unfold DictArray.__getitem__. by destruct (dict_get (_columns T) key). Qed.

(** X2 (insert, then look up).  After [T[key] = value] succeeds, [T[key]]
    is the column [_make_column] made of [value] (the very same object, with
    nothing created, when [value] already was a column), every other name
    still gives what it gave before, and [len] grows by one exactly when the
    name is new. *)
Theorem setitem_then_getitem cupy (T T' : DictArray) (key : string)
    (value : column_input) (h h' : heap) :
  DictArrayOps.__setitem__ cupy T key value h = (Ok T', h') ->
  exists c,
    _make_column cupy value h = (Ok c, h')
    /\ DictArray.__getitem__ T' key h' = (Ok c, h')
    /\ (forall c0, value = InColumn c0 -> c = c0 /\ h' = h)
    /\ (forall k, k <> key ->
          (DictArray.__getitem__ T' k h').1 = (DictArray.__getitem__ T k h).1)
    /\ DictArrayOps.__len__ T'
       = match dict_get (_columns T) key with
         | Some _ => DictArrayOps.__len__ T
         | None => S (DictArrayOps.__len__ T)
         end.
Proof.
  unfold DictArrayOps.__setitem__, bind, ret. intros E.
  destruct (_make_column cupy value h) as [[c|e] h1] eqn:Em; [|done].
  inversion E; subst. exists c.
  split_and!.
  - done.
  - rewrite DictArray_getitem_get. simpl. by rewrite dict_get_set_eq.
  - intros c0 ->. simpl in Em. by inversion Em.
  - intros k Hk. rewrite !DictArray_getitem_get. simpl.
    by rewrite dict_get_set_ne.
  - unfold DictArrayOps.__len__. simpl.
    rewrite <- !(length_map fst), dict_set_keys.
    destruct (dict_get (_columns T) key); [done|].
    rewrite length_app. simpl. lia.
Qed.

Lemma setitem_then_getitem_witness :
  exists c,
    _make_column false (InColumn 0%nat) [OColumn host_column]
      = (Ok c, [OColumn host_column])
    /\ DictArray.__getitem__ (mkDictArray [("a"%string, 0%nat)]) "a" [OColumn host_column]
       = (Ok c, [OColumn host_column]).
Proof.
  destruct (setitem_then_getitem false (mkDictArray []) (mkDictArray [("a"%string, 0%nat)])
              "a" (InColumn 0%nat) [OColumn host_column] [OColumn host_column] eq_refl)
    as (c & Hm & Hg & _).
  exists c. split; [exact Hm|exact Hg].
Defined.

(** X3 (delete).  [del T[key]] raises [KeyError(key)] exactly when [T[key]]
    does; otherwise [T[key]] raises [KeyError] afterwards, every other name
    still gives what it gave before, and [len] has dropped by one. *)
Theorem delitem_then_getitem (T : DictArray) (key : string) (h : heap) :
  NoDup (DictArrayOps.keys T) ->
  match DictArrayOps.__delitem__ T key with
  | Ok T' =>
      (exists c, DictArray.__getitem__ T key h = (Ok c, h))
      /\ DictArray.__getitem__ T' key h = (Raise (KeyError key), h)
      /\ (forall k, k <> key ->
            DictArray.__getitem__ T' k h = DictArray.__getitem__ T k h)
      /\ S (DictArrayOps.__len__ T') = DictArrayOps.__len__ T
      /\ NoDup (DictArrayOps.keys T')
  | Raise e =>
      e = KeyError key
      /\ DictArray.__getitem__ T key h = (Raise (KeyError key), h)
  end.
Proof.
  intros Hnd. unfold DictArrayOps.__delitem__, DictArrayOps.keys in *.
  destruct (dict_del (_columns T) key) as [d|] eqn:E.
  - destruct (dict_del_Some _ _ _ Hnd E) as (Hg & Ho & Hl & Hn).
    rewrite !DictArray_getitem_get. simpl. rewrite Hg.
    split_and!; try done.
    + destruct (dict_get (_columns T) key) as [c|] eqn:Eg; [by exists c|].
      apply dict_del_None in Eg. congruence.
    + intros k Hk. rewrite !DictArray_getitem_get. simpl. by rewrite Ho.
  - apply dict_del_None in E. rewrite DictArray_getitem_get, E. done.
Qed.

Lemma delitem_then_getitem_witness :
  DictArrayOps.__delitem__ (mkDictArray [("a"%string, 0%nat); ("b"%string, 1%nat)]) "a"
    = Ok (mkDictArray [("b"%string, 1%nat)])
  /\ DictArray.__getitem__ (mkDictArray [("b"%string, 1%nat)]) "a" []
     = (Raise (KeyError "a"), []).
Proof.
  split; [reflexivity|].
  assert (Hnd : NoDup (DictArrayOps.keys
                         (mkDictArray [("a"%string, 0%nat); ("b"%string, 1%nat)])))
    by (apply (bool_decide_unpack _); vm_compute; exact I).
  pose proof (delitem_then_getitem
                (mkDictArray [("a"%string, 0%nat); ("b"%string, 1%nat)]) "a" [] Hnd) as H.
  simpl in H. destruct H as (_ & Hg & _). exact Hg.
Defined.

(** X4 (copy).  [copy()] returns a table with the same names bound to the
    same column objects and creates no object: the copy is shallow, so a
    transfer requested on a column reached through the copy changes the
    column the original table holds. *)
Theorem copy_shares_columns cupy (T : DictArray) (h : heap) :
  NoDup (DictArrayOps.keys T) ->
  DictArrayOps.copy cupy T h = (Ok T, h)
  /\ forall key r c fn,
       DictArray.__getitem__ T key h = (Ok r, h) ->
       h !! r = Some (OColumn c) ->
       (T' <- DictArrayOps.copy cupy T;;
        r' <- DictArray.__getitem__ T' key;;
        _ <- Column._device_move fn r';;
        column_of T key) h
       = (Ok (moved fn c), <[r := OColumn (moved fn c)]> h).
Proof.
  intros Hnd.
  assert (Hc : DictArrayOps.copy cupy T h = (Ok T, h)).
  { unfold DictArrayOps.copy. rewrite init_as_inputs by done. by destruct T. }
  split; [exact Hc|].
  intros key r c fn Hg Hr. unfold bind at 1. rewrite Hc.
  unfold bind at 1. rewrite Hg.
  unfold bind at 1. rewrite (_device_move_run fn h r c Hr).
  unfold column_of, bind.
  rewrite DictArray_getitem_get in *.
  destruct (dict_get (_columns T) key) as [r0|]; [|done].
  inversion Hg; subst.
  apply get_column_lookup. apply list_lookup_insert_eq. by eapply lookup_lt_Some.
Qed.

Lemma copy_shares_columns_witness :
  DictArrayOps.copy true (mkDictArray [("a"%string, 0%nat)]) [OColumn host_column]
  = (Ok (mkDictArray [("a"%string, 0%nat)]), [OColumn host_column]).
Proof.
  refine (proj1 (copy_shares_columns true (mkDictArray [("a"%string, 0%nat)])
                   [OColumn host_column] _)).
  apply (bool_decide_unpack _). vm_compute. exact I.
Defined.

Lemma select_items_spec (cols : list (string * ref)) (key : list string)
    (acc : list (string * ref)) :
  NoDup (map fst acc) ->
  match DictArrayOps.select_items cols key acc with
  | Ok d =>
      NoDup (map fst d)
      /\ (forall k, dict_get d k
                    = if decide (k ∈ key) then dict_get cols k else dict_get acc k)
      /\ (NoDup (map fst acc ++ key) -> map fst d = map fst acc ++ key)
      /\ (forall k, k ∈ key -> is_Some (dict_get cols k))
  | Raise e =>
      exists k0, k0 ∈ key /\ e = KeyError k0 /\ dict_get cols k0 = None
  end.
Proof.
  revert acc. induction key as [|k0 key IH]; intros acc Hnd; simpl.
  - split_and!; [done| |by rewrite app_nil_r|].
    + intros k. destruct (decide (k ∈ [])) as [Hin|]; [by apply elem_of_nil in Hin|done].
    + intros k Hin. by apply elem_of_nil in Hin.
  - destruct (dict_get cols k0) as [c|] eqn:Ec.
    + specialize (IH (dict_set acc k0 c) (dict_set_NoDup acc k0 c Hnd)).
      destruct (DictArrayOps.select_items cols key (dict_set acc k0 c)) as [d|e].
      * destruct IH as (Hn & Hg & Hk & Hp). split_and!; [done| | |].
        -- intros k. rewrite Hg.
           destruct (decide (k ∈ key)) as [Hin|Hnin].
           ++ rewrite decide_True; [done|by right].
           ++ destruct (decide (k = k0)) as [->|Hne].
              ** rewrite decide_True by left. by rewrite dict_get_set_eq.
              ** rewrite decide_False by (rewrite elem_of_cons; tauto).
                 by rewrite dict_get_set_ne.
        -- intros Hnd'.
           assert (Hk0 : k0 ∉ map fst acc).
           { apply NoDup_app in Hnd' as (_ & Hd & _). intros Hin. apply (Hd k0 Hin). left. }
           rewrite Hk; rewrite (dict_set_fresh acc k0 c Hk0), map_app; simpl;
             by rewrite <- app_assoc.
        -- intros k Hin. apply elem_of_cons in Hin as [->|Hin]; [by rewrite Ec|by apply Hp].
      * destruct IH as (k1 & Hin & -> & Hc). exists k1. split_and!; [by right|done|done].
    + exists k0. split_and!; [left|done|done].
Qed.

(** X5 (selecting columns).  [T[names]] with a list of names creates no
    object.  It raises [KeyError] for a listed name that [T] does not have;
    otherwise the new table binds each listed name to the very column [T]
    binds it to, has no other name, and keeps the order of the list. *)
Theorem getitem_list_selects cupy (T : DictArray) (key : list string) (h : heap) :
  match DictArrayOps.__getitem__list cupy T key h with
  | (Ok T', h') =>
      h' = h
      /\ (forall k,
            DictArray.__getitem__ T' k h
            = if decide (k ∈ key) then DictArray.__getitem__ T k h
              else (Raise (KeyError k), h))
      /\ (forall k, k ∈ key -> exists c, DictArray.__getitem__ T k h = (Ok c, h))
      /\ (NoDup key -> DictArrayOps.keys T' = key)
  | (Raise e, h') =>
      h' = h
      /\ exists k0, k0 ∈ key /\ e = KeyError k0
                    /\ DictArray.__getitem__ T k0 h = (Raise (KeyError k0), h)
  end.
Proof.
  unfold DictArrayOps.__getitem__list, bind, lift.
  pose proof (select_items_spec (_columns T) key [] (NoDup_nil_2)) as Hs.
  destruct (DictArrayOps.select_items (_columns T) key []) as [d|e].
  - destruct Hs as (Hn & Hg & Hk & Hp). rewrite (init_as_inputs cupy d h Hn).
    split_and!; [done| | |].
    + intros k. rewrite !DictArray_getitem_get. simpl. rewrite Hg.
      by destruct (decide (k ∈ key)).
    + intros k Hin. rewrite DictArray_getitem_get.
      destruct (Hp k Hin) as [c ->]. by exists c.
    + intros Hnd. by apply Hk.
  - destruct Hs as (k0 & Hin & -> & Hc). split; [done|].
    exists k0. rewrite DictArray_getitem_get, Hc. done.
Qed.

Lemma dict_update_get {V} (d other : list (string * V)) (k : string) :
  NoDup (map fst other) ->
  dict_get (dict_update d other) k
  = match dict_get other k with
    | Some v => Some v
    | None => dict_get d k
    end.
Proof.
  revert d. induction other as [|[k0 v0] other IH]; intros d Hnd; [done|].
  simpl in Hnd. apply NoDup_cons in Hnd as [Hk0 Hnd].
  change (dict_update d ((k0, v0) :: other)) with (dict_update (dict_set d k0 v0) other).
  rewrite IH by done. simpl.
  destruct (String.eqb_spec k0 k) as [->|Hne].
  - apply dict_get_None in Hk0. by rewrite Hk0, dict_get_set_eq.
  - by rewrite dict_get_set_ne.
Qed.

(** X6 (bulk update).  After [T.update(other)] with a dictionary of
    columns, a name of [other] gives [other]'s column and every other name
    gives what it gave before; in particular no column of [T] is lost. *)
Theorem update_then_getitem (T : DictArray) (other : list (string * ref))
    (k : string) (h : heap) :
  NoDup (map fst other) ->
  DictArray.__getitem__ (DictArrayOps.update T other) k h
  = match dict_get other k with
    | Some c => (Ok c, h)
    | None => DictArray.__getitem__ T k h
    end.
Proof.
  intros Hnd. rewrite !DictArray_getitem_get. simpl.
  rewrite dict_update_get by done. by destruct (dict_get other k).
Qed.

Lemma update_then_getitem_witness :
  DictArray.__getitem__
    (DictArrayOps.update (mkDictArray [("a"%string, 0%nat); ("b"%string, 1%nat)])
       [("b"%string, 2%nat)]) "b" []
  = (Ok 2%nat, []).
Proof.
  apply (update_then_getitem (mkDictArray [("a"%string, 0%nat); ("b"%string, 1%nat)])
           [("b"%string, 2%nat)] "b" []).
  apply (bool_decide_unpack _). vm_compute. exact I.
Defined.

(** ** Columns: construction, transfer requests, dataframe edge cases *)

(** X7 (what the constructor guarantees).  A column that [Column(...)]
    builds is tagged with the memory its buffer lives in: [CPU] exactly for
    a numpy buffer, [GPU] exactly for a cupy buffer (which needs cupy), and
    its [_array_lib] is the buffer's library; its [dtype] is the buffer's. *)
Theorem init_tags_buffer_library cupy (v rl : pyval) (c : Column) :
  Column.__init__ cupy v rl = Ok c ->
  dtype c = nd_dtype (values c)
  /\ Column_array_lib cupy c = nd_lib (values c)
  /\ (Column.device c = CPU <-> nd_lib (values c) = Numpy)
  /\ (Column.device c = GPU <-> nd_lib (values c) = Cupy /\ cupy = true).
Proof.
  unfold Column.__init__, Column_array_lib, Column.device. intros E.
  destruct (_make_array cupy v) as [|l|a]; try done.
  destruct (nd_lib a) eqn:El; [|destruct cupy eqn:Ec|]; try done;
    inversion E; subst; simpl; rewrite ?El, ?andb_false_r;
    split_and!; try done; split; try done; by intros [? ?].
Qed.

Lemma init_tags_buffer_library_witness :
  Column_array_lib true
    (mkColumn (array_of_list Cupy [1; 2; 3]) PyNone Int64 GPU) = Cupy.
Proof.
  refine (proj1 (proj2 (init_tags_buffer_library true (PyList [1; 2; 3]) PyNone
                          (mkColumn (array_of_list Cupy [1; 2; 3]) PyNone Int64 GPU) _))).
  reflexivity.
Defined.

(** X8 (string arguments of the setter).  With cupy available, assigning
    the string ["cpu"] or ["gpu"] to [device] does what assigning
    [Device.CPU] or [Device.GPU] does, and assigning any other string
    changes nothing and raises nothing. *)
Theorem device_setter_strings (s : string) (self : ref) (c : Column) (h : heap) :
  h !! self = Some (OColumn c) ->
  Column.device_setter true (ArgStr "cpu") self h
    = Column.device_setter true (ArgDevice CPU) self h
  /\ Column.device_setter true (ArgStr "gpu") self h
     = Column.device_setter true (ArgDevice GPU) self h
  /\ (s <> "cpu"%string -> s <> "gpu"%string ->
      Column.device_setter true (ArgStr s) self h = (Ok tt, h)).
Proof.
  intros H. split_and!; [reflexivity..|].
  intros H1 H2. unfold Column.device_setter, bind. simpl.
  destruct (String.eqb_spec s "cpu"); [done|].
  destruct (String.eqb_spec s "gpu"); [done|].
  rewrite (get_column_lookup _ _ _ H). by destruct (_device c).
Qed.

Lemma device_setter_strings_witness :
  Column.device_setter true (ArgStr "cuda") 0%nat [OColumn host_column]
  = (Ok tt, [OColumn host_column]).
Proof.
  refine (proj2 (proj2 (device_setter_strings "cuda" 0%nat host_column
                          [OColumn host_column] eq_refl)) _ _); discriminate.
Defined.

(** X9 (what a transfer request keeps).  Whatever the argument and whether
    or not cupy is available, after a transfer request the column is still
    in the store under the same reference with the same number of rows
    ([__len__]), dtype, and shape and elements of [values] and
    [row_lengths]; every other object of the store is untouched. *)
Theorem transfer_keeps_rows_and_contents cupy (d : device_arg) (h h' : heap)
    (self : ref) (c : Column) (res : result unit) :
  h !! self = Some (OColumn c) ->
  Column.device_setter cupy d self h = (res, h') ->
  exists c',
    h' !! self = Some (OColumn c')
    /\ Column.__len__ c' = Column.__len__ c
    /\ dtype c' = dtype c
    /\ numeric (values c') = numeric (values c)
    /\ numeric_py (row_lengths c') = numeric_py (row_lengths c)
    /\ length h' = length h
    /\ forall r, r <> self -> h' !! r = h !! r.
Proof.
  intros H E.
  assert (Hlen : forall fn, Column.__len__ (moved fn c) = Column.__len__ c).
  { intros fn. unfold Column.__len__, moved. simpl. by destruct (row_lengths c). }
  destruct cupy.
  - destruct (device_setter_cupy_cases d h self c H) as [E'|[fn E']];
      rewrite E' in E; inversion E; subst.
    + by exists c.
    + exists (moved fn c). destruct (moved_numeric fn c) as (?&?&?&?).
      split_and!; try done.
      * apply list_lookup_insert_eq. by eapply lookup_lt_Some.
      * apply length_insert.
      * intros r Hr. by apply list_lookup_insert_ne.
  - rewrite device_setter_no_cupy in E. inversion E; subst. by exists c.
Qed.

Lemma transfer_keeps_rows_and_contents_witness :
  exists c',
    [OColumn (moved cupy_asarray host_column)] !! 0%nat = Some (OColumn c')
    /\ Column.__len__ c' = Column.__len__ host_column.
Proof.
  destruct (transfer_keeps_rows_and_contents true (ArgDevice GPU) [OColumn host_column]
              [OColumn (moved cupy_asarray host_column)] 0%nat host_column (Ok tt)
              eq_refl eq_refl) as (c' & H1 & H2 & _).
  exists c'. split; [exact H1|exact H2].
Defined.

(** X10 (empty flat column).  [to_df] cannot convert a flat column whose
    buffer is empty: [is_list] indexes [values[0]], so the conversion
    raises [IndexError] whatever the dataframe library. *)
Theorem to_df_empty_flat_column_raises cupy (df_lib : DfLib) (c : Column) :
  row_lengths c = PyNone ->
  nd_shape (values c) = [0%nat] ->
  Column.is_list cupy c = Raise IndexError
  /\ DictArray.to_df_column cupy df_lib c = Raise IndexError
  /\ forall (name : string) (h : heap),
       DictArray.to_df cupy df_lib (mkDictArray [(name, length h)]) (h ++ [OColumn c])
       = (Raise IndexError, h ++ [OColumn c]).
Proof.
  intros Hr Hs.
  assert (Hl : Column.is_list cupy c = Raise IndexError).
  { unfold Column.is_list, nd_getitem. by rewrite Hs, Hr. }
  assert (Hc : DictArray.to_df_column cupy df_lib c = Raise IndexError).
  { unfold DictArray.to_df_column. by rewrite Hl. }
  split_and!; [done..|].
  intros name h. unfold DictArray.to_df, DictArray.to_df_items, bind, lift. simpl.
  rewrite (get_column_lookup (h ++ [OColumn c]) (length h) c).
  - by rewrite Hc.
  - by apply list_lookup_middle.
Qed.

Lemma to_df_empty_flat_column_raises_witness :
  DictArray.to_df_column false Pandas
    (mkColumn (NdArray Numpy Float64 [0%nat] []) PyNone Float64 CPU)
  = Raise IndexError.
Proof.
  refine (proj1 (proj2 (to_df_empty_flat_column_raises false Pandas
            (mkColumn (NdArray Numpy Float64 [0%nat] []) PyNone Float64 CPU) _ _)));
    reflexivity.
Defined.

(** ** Round trips through a dataframe, table by table *)

(** A series with as many rows as the frame is stored as it is. *)
Lemma frame_assign_same_rows (df : DataFrame) (col : string) (s : Series) (k : nat) :
  frame_rows df k ->
  series_len s = Ok k ->
  frame_assign df col s = Ok (dict_set df col s)
  /\ (col ∉ map fst df -> frame_rows (df ++ [(col, s)]) k).
Proof.
  intros Hf Hs. destruct df as [|[k0 first] df]; simpl in *.
  - done.
  - rewrite Hf, Hs. simpl. rewrite Nat.eqb_refl. done.
Qed.

Lemma to_df_items_trips cupy df_lib (k : nat) (l : list trip) (df : DataFrame) (h : heap) :
  Forall (fun x => h !! trip_ref x = Some (OColumn (trip_col x))
                   /\ DictArray.to_df_column cupy df_lib (trip_col x) = Ok (trip_series x)
                   /\ series_len (trip_series x) = Ok k) l ->
  frame_rows df k ->
  NoDup (map fst df ++ map trip_key l) ->
  DictArray.to_df_items cupy df_lib (map (fun x => (trip_key x, trip_ref x)) l) df h
  = (Ok (df ++ map (fun x => (trip_key x, trip_series x)) l), h).
Proof.
  intros H. revert df. induction H as [|x l (Hx & Hs & Hk) _ IH]; intros df Hf Hnd; simpl.
  - by rewrite app_nil_r.
  - unfold bind, lift. rewrite (get_column_lookup _ _ _ Hx), Hs.
    assert (Hfresh : trip_key x ∉ map fst df).
    { apply NoDup_app in Hnd as (_ & Hd & _). intros Hin. apply (Hd _ Hin). left. }
    destruct (frame_assign_same_rows df (trip_key x) (trip_series x) k Hf Hk) as [Ha Hf'].
    rewrite Ha, (dict_set_fresh df _ _ Hfresh), IH.
    + by rewrite <- app_assoc.
    + by apply Hf'.
    + rewrite map_app. simpl. by rewrite <- app_assoc.
Qed.

Lemma from_df_items_trips (l : list trip) (acc : list (string * column_input)) :
  Forall (fun x => DictArray.from_df_column (trip_series x) = Ok (trip_input x)) l ->
  NoDup (map fst acc ++ map trip_key l) ->
  DictArray.from_df_items (map (fun x => (trip_key x, trip_series x)) l) acc
  = Ok (acc ++ map (fun x => (trip_key x, trip_input x)) l).
Proof.
  intros H. revert acc. induction H as [|x l Hx _ IH]; intros acc Hnd; simpl.
  - by rewrite app_nil_r.
  - rewrite Hx. simpl.
    assert (Hk : trip_key x ∉ map fst acc).
    { apply NoDup_app in Hnd as (_ & Hd & _). intros Hin. apply (Hd _ Hin). left. }
    rewrite (dict_set_fresh acc _ _ Hk), IH.
    + by rewrite <- app_assoc.
    + rewrite map_app. simpl. by rewrite <- app_assoc.
Qed.

Lemma make_columns_trips cupy (l : list trip) (acc : list (string * ref)) (h : heap) :
  Forall (fun x => forall h0, _make_column cupy (trip_input x) h0
                              = (Ok (length h0), h0 ++ [OColumn (trip_col x)])) l ->
  NoDup (map fst acc ++ map trip_key l) ->
  DictArray.make_columns cupy (map (fun x => (trip_key x, trip_input x)) l) acc h
  = (Ok (acc ++ imap (fun i x => (trip_key x, (length h + i)%nat)) l),
     h ++ map (fun x => OColumn (trip_col x)) l).
Proof.
  intros H. revert acc h. induction H as [|x l Hx _ IH]; intros acc h Hnd; simpl.
  - by rewrite !app_nil_r.
  - unfold bind. rewrite Hx.
    assert (Hk : trip_key x ∉ map fst acc).
    { apply NoDup_app in Hnd as (_ & Hd & _). intros Hin. apply (Hd _ Hin). left. }
    rewrite (dict_set_fresh acc _ _ Hk), IH.
    + rewrite <- !app_assoc. simpl. rewrite Nat.add_0_r. do 4 f_equal.
      apply imap_ext. intros i y _. simpl. rewrite length_app. simpl. f_equal. lia.
    + rewrite map_app. simpl. by rewrite <- app_assoc.
Qed.

(** A table all of whose columns have [k] rows and survive the round trip
    comes back with the same names in the same order, bound to new columns
    equal to the old ones; the old columns stay in the store. *)
Lemma round_trip_of_survivors cupy df_lib (k : nat) (T : DictArray)
    (cs : list Column) (h : heap) :
  NoDup (DictArrayOps.keys T) ->
  Forall2 (fun kr c => h !! kr.2 = Some (OColumn c) /\ survives cupy df_lib k c)
    (_columns T) cs ->
  exists T',
    round_trip cupy df_lib T h = (Ok T', h ++ map OColumn cs)
    /\ DictArrayOps.keys T' = DictArrayOps.keys T
    /\ Forall2 (fun kr c => (h ++ map OColumn cs) !! kr.2 = Some (OColumn c))
         (_columns T') cs.
Proof.
  intros Hnd HF.
  assert (Hl : exists l : list trip,
    _columns T = map (fun x => (trip_key x, trip_ref x)) l
    /\ cs = map trip_col l
    /\ Forall (fun x =>
         (h !! trip_ref x = Some (OColumn (trip_col x))
          /\ DictArray.to_df_column cupy df_lib (trip_col x) = Ok (trip_series x)
          /\ series_len (trip_series x) = Ok k)
         /\ DictArray.from_df_column (trip_series x) = Ok (trip_input x)
         /\ forall h0, _make_column cupy (trip_input x) h0
                       = (Ok (length h0), h0 ++ [OColumn (trip_col x)])) l).
  { clear Hnd. induction HF as [|[key r] c items cs' [Hr (s & inp & H1 & Hk & H2 & H3)] _ (l & E1 & E2 & HFl)].
    - by exists [].
    - exists ((key, r, c, s, inp) :: l). simpl. rewrite E1, E2. split_and!; try done.
      by constructor. }
  destruct Hl as (l & Ecols & Ecs & HFl).
  unfold DictArrayOps.keys in *. rewrite Ecols in Hnd. rewrite map_map in Hnd. simpl in Hnd.
  change (map (fun x : trip => trip_key x) l) with (map trip_key l) in Hnd.
  apply Forall_and in HFl as [HF1 HFl]. apply Forall_and in HFl as [HF2 HF3].
  exists (mkDictArray (imap (fun i x => (trip_key x, (length h + i)%nat)) l)).
  split_and!.
  - unfold round_trip, DictArray.to_df, DictArray.from_df, DictArray.__init__, bind, lift.
    rewrite Ecols.
    rewrite (to_df_items_trips cupy df_lib k l [] h HF1 I) by done. simpl.
    rewrite (from_df_items_trips l [] HF2) by done. simpl.
    rewrite (make_columns_trips cupy l [] h HF3) by done. simpl.
    rewrite Ecs, map_map. reflexivity.
  - simpl. rewrite Ecols, map_map. simpl. clear.
    generalize (length h). induction l as [|x l0 IH]; intros n; simpl; [done|].
    f_equal. rewrite <- (IH (S n)). f_equal. apply imap_ext. intros i y _. simpl.
    f_equal. lia.
  - simpl. rewrite Ecs.
    assert (G : forall (l0 : list trip) (pre : heap),
      Forall2 (fun kr c => (pre ++ map OColumn (map trip_col l0)) !! kr.2 = Some (OColumn c))
        (imap (fun i x => (trip_key x, (length pre + i)%nat)) l0) (map trip_col l0)).
    { induction l0 as [|x l0 IH]; intros pre; simpl; [constructor|].
      constructor.
      - simpl. rewrite Nat.add_0_r. by apply list_lookup_middle.
      - specialize (IH (pre ++ [OColumn (trip_col x)])).
        rewrite <- app_assoc in IH. simpl in IH.
        erewrite imap_ext; [exact IH|].
        intros i y _. simpl. rewrite length_app. simpl. f_equal. lia. }
    apply G.
Qed.

Lemma flat_host_column_survives cupy df_lib (k : nat) (c : Column) :
  flat_host_column c ->
  Column.__len__ c = Ok k ->
  survives cupy df_lib k c.
Proof.
  intros (Hr & Hl & [m Hs] & Hd & Hdev) Hk.
  assert (His : Column.is_list cupy c = Ok false).
  { unfold Column.is_list, nd_getitem. rewrite Hs, Hr. simpl. rewrite Hl. simpl.
    by rewrite andb_false_r. }
  assert (Hlen : nd_len (values c) = Ok k).
  { unfold Column.__len__ in Hk. by rewrite Hr in Hk. }
  exists (match df_lib with
          | Pandas => PdSeries (values c)
          | Cudf => CudfSeries (apply_fn cupy_asarray (values c))
          end), (InValue (PyArray (values c))).
  split_and!.
  - unfold DictArray.to_df_column, Series_buffer. rewrite His, Hs, Hl. simpl.
    by destruct df_lib.
  - by destruct df_lib.
  - destruct df_lib; simpl; [done|].
    unfold DictArray.from_df_column, to_numpy, apply_fn. simpl.
    do 3 f_equal. rewrite <- Hl. by destruct (values c).
  - intros h. unfold _make_column, Column.new, Column.__init__, bind, lift, alloc.
    rewrite Hs. simpl. rewrite Hs, Hl. simpl.
    do 4 f_equal. destruct c as [v r d dv]. simpl in *. by subst.
Qed.

Lemma map_of_nat_to_nat (l : list Z) :
  Forall (fun z => 0 <= z) l -> map Z.of_nat (map Z.to_nat l) = l.
Proof.
  induction 1 as [|z l Hz _ IH]; simpl; [done|].
  rewrite IH, Z2Nat.id by lia. done.
Qed.

(** A non-empty list of integers that fit int64 makes an int64 array. *)
Lemma list_dtype_int64 (x : Z) (l : list Z) :
  Forall (fun z => - 2 ^ 63 <= z < 2 ^ 63) (x :: l) -> list_dtype (x :: l) = Int64.
Proof.
  intros H. unfold list_dtype.
  replace (forallb (in_range (- 2 ^ 63) (2 ^ 63)) (x :: l)) with true; [done|].
  symmetry. apply forallb_forall. intros z Hz.
  rewrite Forall_forall in H. apply list_elem_of_In in Hz. specialize (H z Hz).
  unfold in_range. apply andb_true_iff. split; [apply Z.leb_le|apply Z.ltb_lt]; lia.
Qed.

Lemma build_pandas_rows_length (elements : ndarray) (off : Z) (lens : list Z) :
  length (build_pandas_rows elements off lens) = length lens.
Proof. revert off. induction lens as [|x lens IH]; intros off; simpl; [done|by rewrite IH]. Qed.

Lemma ragged_host_column_survives cupy (k : nat) (c : Column) :
  ragged_host_column c ->
  Column.__len__ c = Ok k ->
  survives cupy Pandas k c.
Proof.
  intros (rl & n & m & Hr & Hlr & Hdr & Hsr & Hnr & Hpos & Hsum & Hbig & Hlv & Hsv & Hm & Hd & Hdev) Hk.
  assert (Hkn : k = S n).
  { unfold Column.__len__, nd_len in Hk. rewrite Hr, Hsr in Hk. by inversion Hk. }
  destruct (build_pandas_rows_spec (values c) (nd_data rl) 0 Hpos) as (Hc & Hl & Hdt);
    [lia..|].
  rewrite Hsum, Nat2Z.id, drop_0, take_ge in Hc by lia.
  exists (PdListSeries (build_pandas_rows (values c) 0 (nd_data rl))),
    (InTuple (PyArray (values c)) (PyArray rl)).
  split_and!.
  - unfold DictArray.to_df_column, Column.is_list, Series_buffer.
    rewrite Hr, Hsv, Hsr, Hlv, Hlr. reflexivity.
  - simpl. by rewrite build_pandas_rows_length, Hnr, Hkn.
  - destruct (build_pandas_rows (values c) 0 (nd_data rl)) as [|row rows] eqn:Erows.
    { simpl in Hl. destruct (nd_data rl); [done|discriminate Hl]. }
    unfold DictArray.from_df_column, get_series_offsets, is_list_dtype.
    rewrite bool_decide_eq_false_2 by done. cbn [negb].
    unfold flatten_list_column_values. cbn [rbind]. rewrite Hl. cbn [rbind].
    rewrite (map_of_nat_to_nat _ Hpos).
    rewrite Hc. cbn [head from_option].
    apply Forall_cons in Hdt as [Hrow _]. rewrite Hrow, Hm.
    f_equal. f_equal; f_equal.
    + rewrite <- Hlv, <- Hsv. by destruct (values c).
    + unfold array_of_list. rewrite Hnr, <- Hlr, <- Hsr.
      destruct (nd_data rl) as [|x rest] eqn:Edata; [done|].
      rewrite list_dtype_int64.
      * rewrite <- Hdr, <- Edata. by destruct rl.
      * pose proof (sum_list_bounds _ Hpos) as Hb.
        eapply Forall_impl; [exact Hb|]. intros z Hz. cbv beta in Hz.
        rewrite Hsum in Hz. lia.
  - intros h.
    unfold _make_column, Column.new, Column.__init__, bind, lift, alloc. simpl.
    rewrite Hsv, Hlv. simpl.
    do 4 f_equal. destruct c as [v r d dv]. simpl in *. by subst.
Qed.

(** X11 (round trip of flat columns).  For a table whose columns are all
    flat, non-empty host columns with the same number of rows,
    [from_df(to_df(T))] succeeds for the pandas and for the cudf target
    alike and gives a table with the same names in the same order, each
    bound to a new column equal to the original (values, dtype, no row
    lengths, device); the original columns are left in the store. *)
Theorem round_trip_flat_table cupy (df_lib : DfLib) (k : nat) (T : DictArray)
    (cs : list Column) (h : heap) :
  NoDup (DictArrayOps.keys T) ->
  Forall2 (fun kr c => h !! kr.2 = Some (OColumn c)
                       /\ flat_host_column c
                       /\ Column.__len__ c = Ok k)
    (_columns T) cs ->
  exists T',
    round_trip cupy df_lib T h = (Ok T', h ++ map OColumn cs)
    /\ DictArrayOps.keys T' = DictArrayOps.keys T
    /\ Forall2 (fun kr c => (h ++ map OColumn cs) !! kr.2 = Some (OColumn c))
         (_columns T') cs.
Proof.
  intros Hnd HF. apply (round_trip_of_survivors cupy df_lib k); [done|].
  eapply Forall2_impl; [exact HF|]. intros kr c (Hr & Hc & Hk). split; [done|].
  by apply flat_host_column_survives.
Qed.

Lemma round_trip_flat_table_witness :
  exists T',
    round_trip true Cudf (mkDictArray [("a"%string, 0%nat); ("b"%string, 1%nat)])
      [OColumn host_column; OColumn host_column_2]
    = (Ok T', [OColumn host_column; OColumn host_column_2;
               OColumn host_column; OColumn host_column_2])
    /\ DictArrayOps.keys T' = ["a"%string; "b"%string].
Proof.
  destruct (round_trip_flat_table true Cudf 3
              (mkDictArray [("a"%string, 0%nat); ("b"%string, 1%nat)])
              [host_column; host_column_2]
              [OColumn host_column; OColumn host_column_2]) as (T' & E & Hk & _).
  - apply (bool_decide_unpack _). vm_compute. exact I.
  - constructor; [|constructor; [|constructor]];
      (split; [reflexivity|]); (split; [|reflexivity]);
      unfold flat_host_column; split_and!; try reflexivity; by exists 2%nat.
  - exists T'. split; [exact E|exact Hk].
Defined.

(** X12 (round trip through pandas).  For a table whose columns are host
    columns with the same number of rows, each either flat and non-empty or
    ragged over a non-empty buffer with non-negative int64 row lengths and
    [sum(row_lengths) = len(values)], [from_df(to_df(T))] through pandas
    succeeds and gives a table with the same names in the same order, each
    bound to a new column equal to the original: values, dtype and row
    lengths are reproduced. *)
Theorem round_trip_pandas_table cupy (k : nat) (T : DictArray) (cs : list Column)
    (h : heap) :
  NoDup (DictArrayOps.keys T) ->
  Forall2 (fun kr c => h !! kr.2 = Some (OColumn c)
                       /\ (flat_host_column c \/ ragged_host_column c)
                       /\ Column.__len__ c = Ok k)
    (_columns T) cs ->
  exists T',
    round_trip cupy Pandas T h = (Ok T', h ++ map OColumn cs)
    /\ DictArrayOps.keys T' = DictArrayOps.keys T
    /\ Forall2 (fun kr c => (h ++ map OColumn cs) !! kr.2 = Some (OColumn c))
         (_columns T') cs.
Proof.
  intros Hnd HF. apply (round_trip_of_survivors cupy Pandas k); [done|].
  eapply Forall2_impl; [exact HF|]. intros kr c (Hr & [Hc|Hc] & Hk); (split; [done|]).
  - by apply flat_host_column_survives.
  - by apply ragged_host_column_survives.
Qed.

Lemma round_trip_pandas_table_witness :
  exists T',
    round_trip false Pandas (mkDictArray [("a"%string, 0%nat); ("b"%string, 1%nat)])
      [OColumn host_column; OColumn ragged_example]
    = (Ok T', [OColumn host_column; OColumn ragged_example;
               OColumn host_column; OColumn ragged_example])
    /\ DictArrayOps.keys T' = ["a"%string; "b"%string].
Proof.
  destruct (round_trip_pandas_table false 3
              (mkDictArray [("a"%string, 0%nat); ("b"%string, 1%nat)])
              [host_column; ragged_example]
              [OColumn host_column; OColumn ragged_example]) as (T' & E & Hk & _).
  - apply (bool_decide_unpack _). vm_compute. exact I.
  - constructor; [|constructor; [|constructor]].
    + split; [reflexivity|]. split; [|reflexivity]. left.
      unfold flat_host_column. split_and!; try reflexivity. by exists 2%nat.
    + split; [reflexivity|]. split; [|reflexivity]. right.
      exists (array_of_list Numpy [2; 3; 1]), 2%nat, 5%nat.
      split_and!; try reflexivity. repeat constructor; lia.
  - exists T'. split; [exact E|exact Hk].
Defined.

(** ** Row lengths extracted by [from_df] *)

Lemma default_last_cons (a b : Z) (t : list Z) :
  default a (last (b :: t)) = default b (last t).
Proof. rewrite last_cons. by destruct (last t). Qed.

Lemma adjacent_diffs_telescope (a : Z) (t : list Z) :
  sum_list (adjacent_diffs (a :: t)) = default a (last t) - a.
Proof.
  revert a. induction t as [|b t IH]; intros a.
  - unfold adjacent_diffs, sum_list. simpl. lia.
  - rewrite adjacent_diffs_cons2.
    change (sum_list ((b - a) :: adjacent_diffs (b :: t)))
      with ((b - a) + sum_list (adjacent_diffs (b :: t))).
    rewrite IH, (default_last_cons a b t). lia.
Qed.

Lemma wrap_dtype_small (dt : DType) (z : Z) :
  0 <= z < 2 ^ 31 -> wrap_dtype dt z = z.
Proof.
  intros Hz. destruct dt; simpl; unfold to_int32, to_int64; try done;
    rewrite Z.mod_small; lia.
Qed.

Lemma nondecreasing_diffs (a : Z) (t : list Z) :
  nondecreasing (a :: t) = true ->
  a <= default a (last t)
  /\ Forall (fun z => 0 <= z <= default a (last t) - a) (adjacent_diffs (a :: t)).
Proof.
  revert a. induction t as [|b t IH]; intros a H.
  - simpl. split; [lia|constructor].
  - rewrite nondecreasing_cons2 in H. apply andb_true_iff in H as [Hab Ht].
    apply Z.leb_le in Hab. destruct (IH b Ht) as [Hb HF].
    rewrite adjacent_diffs_cons2, (default_last_cons a b t). split; [lia|].
    constructor; [lia|].
    eapply Forall_impl; [exact HF|]. intros z Hz. cbv beta in Hz. lia.
Qed.

(** X13 (row lengths read off boundaries).  For an Encoding-B column with a
    flat accelerator buffer of [m < 2^31] values and a well-formed boundary
    array [b(0), ..., b(N)] (non-negative, never decreasing, [b(N) = m]),
    [from_df] succeeds and yields the row lengths [b(i+1) - b(i)], whose sum
    is [m - b(0)]; the column it builds satisfies I1 exactly when
    [b(0) = 0]. *)
Theorem from_df_cudf_row_lengths_sum (name : string) (elements offs : ndarray)
    (m n : nat) (b0 : Z) (bs : list Z) (h : heap) :
  nd_shape elements = [m] ->
  nd_lib elements = Cupy ->
  nd_shape offs = [n] ->
  length (nd_data offs) = n ->
  nd_data offs = b0 :: bs ->
  0 <= b0 ->
  nondecreasing (b0 :: bs) = true ->
  last (b0 :: bs) = Some (Z.of_nat m) ->
  Z.of_nat m < 2 ^ 31 ->
  exists c,
    DictArray.from_df true [(name, CudfListSeries elements offs)] h
    = (Ok (mkDictArray [(name, length h)]), h ++ [OColumn c])
    /\ pyval_data (row_lengths c) = Some (adjacent_diffs (b0 :: bs))
    /\ sum_list (adjacent_diffs (b0 :: bs)) = Z.of_nat m - b0
    /\ (I1 c = true <-> b0 = 0).
Proof.
  intros Hm Hl Hs Hn Hb Hb0 Hmono Hlast Hsmall.
  assert (Hdl : default b0 (last bs) = Z.of_nat m).
  { rewrite last_cons in Hlast. destruct (last bs); simpl; by inversion Hlast. }
  destruct (nondecreasing_diffs b0 bs Hmono) as [_ HF]. rewrite Hdl in HF.
  assert (Hw : map (wrap_dtype (nd_dtype offs)) (adjacent_diffs (b0 :: bs))
               = adjacent_diffs (b0 :: bs)).
  { induction HF as [|z l Hz _ IH]; simpl; [done|].
    rewrite IH, wrap_dtype_small by lia. done. }
  assert (Hsum : sum_list (adjacent_diffs (b0 :: bs)) = Z.of_nat m - b0).
  { by rewrite adjacent_diffs_telescope, Hdl. }
  unfold DictArray.from_df, bind, lift.
  cbn [DictArray.from_df_items]. unfold DictArray.from_df_column, is_list_dtype.
  unfold flatten_list_column_values, nd_len. rewrite Hm. cbn [rbind].
  rewrite Hb, Hmono, (bool_decide_eq_true_2 _ Hlast). cbn [andb rbind].
  rewrite (get_series_offsets_cudf elements offs n Hs Hn), Hb, Hw. cbn [rbind].
  unfold DictArray.__init__, bind. simpl.
  unfold Column.new, Column.__init__, bind, lift, alloc. simpl.
  rewrite Hm, Hl. simpl.
  eexists. split_and!; [reflexivity|reflexivity|exact Hsum|].
  unfold I1, nd_len. simpl. rewrite Hm, Hsum. rewrite Z.eqb_eq. lia.
Qed.

Lemma from_df_cudf_row_lengths_sum_witness :
  exists c,
    DictArray.from_df true
      [("a"%string, CudfListSeries (array_of_list Cupy [1; 2; 3; 4; 5])
                      (NdArray Cupy Int32 [3%nat] [0; 2; 5]))] []
    = (Ok (mkDictArray [("a"%string, 0%nat)]), [OColumn c])
    /\ pyval_data (row_lengths c) = Some [2; 3]
    /\ I1 c = true.
Proof.
  destruct (from_df_cudf_row_lengths_sum "a" (array_of_list Cupy [1; 2; 3; 4; 5])
              (NdArray Cupy Int32 [3%nat] [0; 2; 5]) 5 3 0 [2; 5] []
              eq_refl eq_refl eq_refl eq_refl eq_refl) as (c & E & Hr & _ & HI);
    [lia|reflexivity|reflexivity|reflexivity|].
  exists c. split_and!; [exact E|exact Hr|by apply HI].
Defined.

Lemma result_map_nd_len (rows : list ndarray) :
  Forall (fun r => nd_shape r = [length (nd_data r)]) rows ->
  result_map nd_len rows = Ok (map (fun r => length (nd_data r)) rows).
Proof.
  induction 1 as [|r rows Hr _ IH]; simpl; [done|].
  unfold nd_len at 1. rewrite Hr, IH. reflexivity.
Qed.

Lemma sum_list_lengths (rows : list ndarray) :
  sum_list (map Z.of_nat (map (fun r => length (nd_data r)) rows))
  = Z.of_nat (length (concat (map nd_data rows))).
Proof.
  unfold sum_list. induction rows as [|r rows IH]; simpl; [done|].
  rewrite IH, length_app. lia.
Qed.

(** X14 (row lengths read off rows).  For an Encoding-A column with at
    least one row, all rows flat arrays, [from_df] builds a host column
    whose values are the rows concatenated in order and whose row lengths
    are the lengths of the rows; that column satisfies I1. *)
Theorem from_df_pandas_list_column cupy (name : string) (rows : list ndarray)
    (h : heap) :
  rows <> [] ->
  Forall (fun r => nd_shape r = [length (nd_data r)]) rows ->
  exists c,
    DictArray.from_df cupy [(name, PdListSeries rows)] h
    = (Ok (mkDictArray [(name, length h)]), h ++ [OColumn c])
    /\ nd_data (values c) = concat (map nd_data rows)
    /\ pyval_data (row_lengths c)
       = Some (map (fun r => Z.of_nat (length (nd_data r))) rows)
    /\ Column.__len__ c = Ok (length rows)
    /\ Column.device c = CPU
    /\ I1 c = true.
Proof.
  intros Hne Hwf.
  unfold DictArray.from_df, DictArray.from_df_items, DictArray.from_df_column,
    get_series_offsets, is_list_dtype, bind, lift.
  rewrite bool_decide_eq_false_2 by done. cbn [negb].
  rewrite (result_map_nd_len rows Hwf). simpl.
  unfold DictArray.__init__, bind. simpl.
  unfold Column.new, Column.__init__, bind, lift, alloc. simpl.
  eexists. split_and!; [reflexivity..| | | |].
  - simpl. by rewrite map_map.
  - unfold Column.__len__, nd_len. simpl. by rewrite !length_map.
  - reflexivity.
  - unfold I1, nd_len. simpl. rewrite sum_list_lengths. apply Z.eqb_refl.
Qed.

Lemma from_df_pandas_list_column_witness :
  exists c,
    DictArray.from_df false
      [("a"%string, PdListSeries [array_of_list Numpy [1; 2]; array_of_list Numpy [3]])] []
    = (Ok (mkDictArray [("a"%string, 0%nat)]), [OColumn c])
    /\ nd_data (values c) = [1; 2; 3]
    /\ pyval_data (row_lengths c) = Some [2; 1].
Proof.
  destruct (from_df_pandas_list_column false "a"
              [array_of_list Numpy [1; 2]; array_of_list Numpy [3]] [])
    as (c & E & Hv & Hr & _).
  - discriminate.
  - repeat constructor.
  - exists c. split_and!; [exact E|exact Hv|exact Hr].
Defined.

(** ** Two-dimensional input and one-element rows *)

(** X15 (normalisation of two-dimensional input).  [_make_column] on an
    array of shape [(n, w)] of a supported type creates one column: its
    values are the same elements as a flat buffer of [n * w] entries, its row
    lengths are [n] times [w], it has [n] rows, it counts as a list column,
    its dtype is the array's and it satisfies I1. *)
Theorem make_column_2d_normalises cupy (a : ndarray) (n w : nat) (h : heap) :
  nd_shape a = [n; w] ->
  nd_lib a = Numpy \/ (nd_lib a = Cupy /\ cupy = true) ->
  exists c,
    _make_column cupy (InValue (PyArray a)) h = (Ok (length h), h ++ [OColumn c])
    /\ nd_data (values c) = nd_data a
    /\ nd_shape (values c) = [(n * w)%nat]
    /\ pyval_data (row_lengths c) = Some (replicate n (Z.of_nat w))
    /\ Column.__len__ c = Ok n
    /\ Column.is_list cupy c = Ok true
    /\ dtype c = nd_dtype a
    /\ I1 c = true.
Proof.
  intros Hs Hl.
  destruct (_make_column_2d cupy a n w h Hs Hl) as (c & E & _ & Hv & Hr & Hd & HI).
  exists c. split_and!; try done.
  - by rewrite Hv.
  - rewrite Hv. unfold flatten. simpl. rewrite Hs. simpl. do 2 f_equal. lia.
  - by rewrite Hr.
  - unfold Column.__len__, nd_len. rewrite Hr. unfold array_of_list. cbn [nd_shape].
    by rewrite length_replicate.
  - unfold Column.is_list. rewrite Hv, Hr. reflexivity.
Qed.

Lemma make_column_2d_normalises_witness :
  exists c,
    _make_column false (InValue (PyArray array_3x4)) [] = (Ok 0%nat, [OColumn c])
    /\ nd_shape (values c) = [12%nat]
    /\ pyval_data (row_lengths c) = Some [4; 4; 4].
Proof.
  destruct (make_column_2d_normalises false array_3x4 3 4 [] eq_refl (or_introl eq_refl))
    as (c & E & _ & Hs & Hr & _).
  exists c. split_and!; [exact E|exact Hs|exact Hr].
Defined.

Lemma spec_offset_replicate (n i : nat) :
  (i <= n)%nat -> spec_offset (replicate n 1) i = Z.of_nat i.
Proof.
  induction i as [|i IH]; intros Hi; [done|].
  simpl. rewrite IH by lia. rewrite lookup_replicate_2 by lia. simpl. lia.
Qed.

(** X16 (one-element rows).  For a column whose [n] rows all have length
    one over a flat buffer of [n] values, row extraction is right: for every
    [i < n], [column[i]] is the one-element array holding [values[i]], which
    is the row the exclusive-prefix-sum definition asks for. *)
Theorem getitem_unit_rows (c : Column) (rl : ndarray) (n i : nat) (v : Z) :
  row_lengths c = PyArray rl ->
  nd_shape rl = [n] ->
  nd_data rl = replicate n 1 ->
  nd_shape (values c) = [n] ->
  length (nd_data (values c)) = n ->
  nd_data (values c) !! i = Some v ->
  exists r,
    Column.__getitem__ c (Z.of_nat i) = Ok r
    /\ nd_data r = [v]
    /\ spec_row (nd_data (values c)) (nd_data rl) i = [v].
Proof.
  intros Hr Hs Hd Hvs Hm Hv.
  assert (Hi : (i < n)%nat) by (rewrite <- Hm; by eapply lookup_lt_Some).
  assert (Hn : length (nd_data rl) = n) by (rewrite Hd; apply length_replicate).
  assert (Hl : nd_data rl !! i = Some 1) by (rewrite Hd; by apply lookup_replicate_2).
  destruct (getitem_ragged_actual c rl n n i 1 Hr Hs Hn Hvs Hm Hl) as (r & E & D).
  assert (Hrow : py_slice (nd_data (values c)) (Z.of_nat i) (Z.of_nat i + 1) = [v]).
  { rewrite py_slice_inside by lia.
    rewrite Nat2Z.id. change (Z.to_nat 1) with 1%nat. by apply take_1_drop. }
  exists r. split_and!; [done| |].
  - rewrite D, Hd, spec_offset_replicate by lia.
    replace (Z.of_nat i + 1 - 1) with (Z.of_nat i) by lia. exact Hrow.
  - unfold spec_row. rewrite Hl. simpl. rewrite Hd, spec_offset_replicate by lia.
    exact Hrow.
Qed.

Lemma getitem_unit_rows_witness :
  exists r,
    Column.__getitem__
      (mkColumn (array_of_list Numpy [7; 8; 9])
         (PyArray (array_of_list Numpy [1; 1; 1])) Int64 CPU) 1 = Ok r
    /\ nd_data r = [8].
Proof.
  destruct (getitem_unit_rows
              (mkColumn (array_of_list Numpy [7; 8; 9])
                 (PyArray (array_of_list Numpy [1; 1; 1])) Int64 CPU)
              (array_of_list Numpy [1; 1; 1]) 3 1 8
              eq_refl eq_refl eq_refl eq_refl eq_refl eq_refl) as (r & E & D & _).
  exists r. split; [exact E|exact D].
Defined.

(** ** The HugeCTR test helper [_convert] *)






(** ** Memory domains *)

(** X18 (a move takes both buffers along).  With cupy available, [gpu()] on
    a column tagged [CPU] leaves [values] and [row_lengths] (when present)
    both in accelerator memory, and [cpu()] on a column tagged [GPU] leaves
    both in host memory, wherever each of them was before; the same column
    object is returned. *)
Theorem move_takes_both_buffers (h : heap) (self : ref) (c : Column) :
  h !! self = Some (OColumn c) ->
  exists h' c',
    (match _device c with CPU => Column.gpu | GPU => Column.cpu end) true self h
    = (Ok self, h')
    /\ h' !! self = Some (OColumn c')
    /\ buffers_in (match _device c with CPU => Cupy | GPU => Numpy end) c'.
Proof.
  intros H.
  assert (Hb : forall fn, buffers_in (fn_target fn) (moved fn c)).
  { intros fn. split; [done|]. unfold moved. simpl.
    destruct (row_lengths c) as [|l|a]; [by left|right|right]; by eexists. }
  assert (Hlk : forall fn, <[self := OColumn (moved fn c)]> h !! self
                           = Some (OColumn (moved fn c))).
  { intros fn. apply list_lookup_insert_eq. by eapply lookup_lt_Some. }
  destruct (_device c) eqn:Ed.
  - exists (<[self := OColumn (moved cupy_asarray c)]> h), (moved cupy_asarray c).
    split_and!; [|done|apply (Hb cupy_asarray)].
    unfold Column.gpu, Column.device_setter, bind. simpl.
    rewrite (get_column_lookup _ _ _ H), Ed.
    by rewrite (_device_move_run cupy_asarray h self c H).
  - exists (<[self := OColumn (moved cupy_asnumpy c)]> h), (moved cupy_asnumpy c).
    split_and!; [|done|apply (Hb cupy_asnumpy)].
    unfold Column.cpu, Column.device_setter, bind. simpl.
    rewrite (get_column_lookup _ _ _ H), Ed.
    by rewrite (_device_move_run cupy_asnumpy h self c H).
Qed.

Lemma move_takes_both_buffers_witness :
  exists h' c',
    Column.gpu true 0%nat [OColumn ragged_example] = (Ok 0%nat, h')
    /\ h' !! 0%nat = Some (OColumn c')
    /\ buffers_in Cupy c'.
Proof.
  exact (move_takes_both_buffers [OColumn ragged_example] 0%nat ragged_example eq_refl).
Defined.

(** X19 (columns built from Python lists).  [Column(values, row_lengths)]
    with two Python lists of integers that fit int64 succeeds; both lists
    become arrays of the library [_array_lib()] picks, holding the entries
    of the lists, with dtype int64 (float64 for an empty list), so the
    column lives on the [GPU] when cupy is imported and usable and on the
    [CPU] when it cannot be imported, with its two buffers in the same
    memory. *)
Theorem init_from_lists cupy (l rl : list Z) :
  Forall (fun z => - 2 ^ 63 <= z < 2 ^ 63) l ->
  Forall (fun z => - 2 ^ 63 <= z < 2 ^ 63) rl ->
  exists c a,
    Column.__init__ cupy (PyList l) (PyList rl) = Ok c
    /\ nd_data (values c) = l
    /\ nd_shape (values c) = [length l]
    /\ dtype c = match l with [] => Float64 | _ => Int64 end
    /\ nd_dtype (values c) = dtype c
    /\ row_lengths c = PyArray a
    /\ nd_data a = rl
    /\ nd_dtype a = match rl with [] => Float64 | _ => Int64 end
    /\ buffers_in (_array_lib cupy) c
    /\ Column.device c = (if cupy then GPU else CPU)
    /\ Column.__len__ c = Ok (length rl).
Proof.
  intros Hl Hrl.
  assert (Hd : forall x : list Z, Forall (fun z => - 2 ^ 63 <= z < 2 ^ 63) x ->
                 list_dtype x = match x with [] => Float64 | _ => Int64 end).
  { intros [|z x] Hx; [done|]. by apply list_dtype_int64. }
  destruct cupy;
    [exists (mkColumn (array_of_list Cupy l) (PyArray (array_of_list Cupy rl))
               (list_dtype l) GPU), (array_of_list Cupy rl)
    |exists (mkColumn (array_of_list Numpy l) (PyArray (array_of_list Numpy rl))
               (list_dtype l) CPU), (array_of_list Numpy rl)];
    (split; [reflexivity|]);
    cbn [values row_lengths dtype array_of_list nd_data nd_shape nd_dtype];
    rewrite (Hd l Hl), (Hd rl Hrl);
    (split_and!; try reflexivity);
    (split; [reflexivity|right; by eexists]).
Qed.

Lemma init_from_lists_witness :
  exists c,
    Column.__init__ true (PyList [1; 2; 3]) (PyList [2; 1]) = Ok c
    /\ dtype c = Int64
    /\ buffers_in Cupy c
    /\ Column.device c = GPU.
Proof.
  destruct (init_from_lists true [1; 2; 3] [2; 1]) as (c & a & E & _ & _ & Hd & _ & _ & _ & _ & Hb & Hdev & _).
  - repeat constructor; lia.
  - repeat constructor; lia.
  - exists c. split_and!; [exact E|exact Hd|exact Hb|exact Hdev].
Defined.
